(** * databiz: the data pipeline of the health-facility dashboard

    A shallow embedding of [src/processing.py], of the table computed by
    [plot_top_comunas] in [src/viz.py] and of the retrieval client in
    [src/api_client.py], followed by the properties the specification
    states about them.

    Conventions of the embedding.
    - Text is a [string] of UTF-8 bytes; the operations that Python runs on
      code points (stripping, case-insensitive search) are written on the
      byte sequences that encode them.
    - A frame is a header (label and dtype per column) and its rows.  Only
      two dtypes matter to the code: [object] (text, what [read_csv] gives a
      column holding at least one non-numeric value) and every other dtype,
      merged into [numeric].  A missing value is [NaN] in both.
    - Column labels are taken to be pairwise distinct, as [read_csv] makes
      them; a label then selects one column and the label-indexed
      assignments of pandas act on that column alone.
    - An exception is a value of [exn]; code that can raise returns a
      [result]. *)

From Stdlib Require Import String Ascii Bool Arith ZArith QArith Qround Lia Lqa List.
From Stdlib Require Import Sorting.Sorted Sorting.Permutation.
From Stdlib Require Decimal DecimalString.
Import ListNotations.

Local Close Scope Q_scope.
Local Open Scope string_scope.
Local Open Scope list_scope.
Local Open Scope nat_scope.

(** ** Exceptions and results *)

Inductive exn : Type :=
| RequestException (reason : string)
| JSONDecodeError
| ValueError (msg : string)
| KeyError (key : string)
| TypeError (msg : string)
| AttributeError (msg : string).

Inductive result (A : Type) : Type :=
| Ok (a : A)
| Raise (e : exn).

Arguments Ok {A} a.
Arguments Raise {A} e.

(** ** Text helpers *)

Module Text.

(** [needle in hay] of Python, on strings. *)
Fixpoint contains (needle hay : string) : bool :=
  String.prefix needle hay ||
  match hay with
  | EmptyString => false
  | String _ rest => contains needle rest
  end.

Section Stripping.

(** Which one, two or three bytes make a character to strip. *)
Variable sp1 : ascii -> bool.
Variable sp2 : ascii -> ascii -> bool.
Variable sp3 : ascii -> ascii -> ascii -> bool.


(** Drop such characters from the front, as long as there are any. *)
Fixpoint drop_front (l : list ascii) : list ascii :=
  match l with
  | [] => []
  | a :: r1 =>
      if sp1 a then drop_front r1
      else
        match r1 with
        | [] => l
        | b :: r2 =>
            if sp2 a b then drop_front r2
            else
              match r2 with
              | [] => l
              | c :: r3 => if sp3 a b c then drop_front r3 else l
              end
        end
  end.

End Stripping.

(** White space as [str.isspace] has it, in UTF-8: the ASCII controls
    0x09 to 0x0d and 0x1c to 0x1f and the space; U+0085 and U+00A0;
    U+1680, U+2000 to U+200A, U+2028, U+2029, U+202F, U+205F, U+3000. *)
Definition space1 (a : ascii) : bool :=
  let n := nat_of_ascii a in
  ((9 <=? n) && (n <=? 13)) || ((28 <=? n) && (n <=? 32)).

Definition space2 (a b : ascii) : bool :=
  (nat_of_ascii a =? 194) && ((nat_of_ascii b =? 133) || (nat_of_ascii b =? 160)).

Definition space3 (a b c : ascii) : bool :=
  let n := nat_of_ascii c in
  match nat_of_ascii a, nat_of_ascii b with
  | 225, 154 => n =? 128
  | 226, 128 => ((128 <=? n) && (n <=? 138)) || (n =? 168) || (n =? 169) || (n =? 175)
  | 226, 129 => n =? 159
  | 227, 128 => n =? 128
  | _, _ => false
  end.

Definition lstrip_bytes : list ascii -> list ascii :=
  drop_front space1 space2 space3.

(** From the end: the same on the reversed text, the bytes of a character
    read backwards. *)
Definition rstrip_bytes (l : list ascii) : list ascii :=
  rev (drop_front space1 (fun b a => space2 a b) (fun c b a => space3 a b c) (rev l)).

(** [str.strip()] without argument. *)
Definition strip (s : string) : string :=
  string_of_list_ascii (rstrip_bytes (lstrip_bytes (list_ascii_of_string s))).

Definition byte (n : nat) : ascii := ascii_of_nat n.

(** Case folding as [re.IGNORECASE] sees the letters of the KPI pattern:
    ASCII capitals, the capitals of the Latin-1 block (lead byte 0xC3,
    among them U+00DA for U+00FA), and the letters Python pairs with ASCII
    ones: U+0130 and U+0131 with [i], U+017F with [s], U+212A with [k]. *)
Fixpoint casefold (s : string) : string :=
  match s with
  | EmptyString => EmptyString
  | String c rest =>
      let n := nat_of_ascii c in
      if (65 <=? n) && (n <=? 90) then String (byte (n + 32)) (casefold rest)
      else
        match rest with
        | String c2 rest2 =>
            let m := nat_of_ascii c2 in
            if (n =? 195) && (128 <=? m) && (m <=? 158) && negb (m =? 151)
            then String c (String (byte (m + 32)) (casefold rest2))
            else if (n =? 196) && ((m =? 176) || (m =? 177))
            then String "i" (casefold rest2)
            else if (n =? 197) && (m =? 191)
            then String "s" (casefold rest2)
            else
              match rest2 with
              | String c3 rest3 =>
                  if (n =? 226) && (m =? 132) && (nat_of_ascii c3 =? 170)
                  then String "k" (casefold rest3)
                  else String c (casefold rest)
              | EmptyString => String c (casefold rest)
              end
        | EmptyString => String c EmptyString
        end
  end.

(** [re.search] of an alternation of literals, with or without
    [re.IGNORECASE]. *)
Definition search (alternatives : list string) (case : bool) (s : string) : bool :=
  existsb
    (fun lit => if case then contains lit s
                else contains (casefold lit) (casefold s))
    alternatives.

End Text.

(** ** Frames *)

Inductive dtype : Type := object | numeric.

Inductive cell : Type :=
| NaN
| Str (s : string)
| Num (z : Z).

Record column : Type := mkColumn { label : string; col_dtype : dtype }.

Record DataFrame : Type := mkFrame {
  columns : list column;
  rows : list (list cell)
}.

Definition dtype_eqb (a b : dtype) : bool :=
  match a, b with
  | object, object | numeric, numeric => true
  | _, _ => false
  end.

Definition cell_compare (a b : cell) : comparison :=
  match a, b with
  | NaN, NaN => Eq
  | NaN, _ => Gt
  | _, NaN => Lt
  | Num x, Num y => Z.compare x y
  | Num _, Str _ => Lt
  | Str _, Num _ => Gt
  | Str s, Str t => String.compare s t
  end.

Definition cell_eqb (a b : cell) : bool :=
  match cell_compare a b with Eq => true | _ => false end.

Definition isna (c : cell) : bool :=
  match c with NaN => true | _ => false end.

(** [len(df)] *)
Definition len (df : DataFrame) : nat := length (rows df).

Definition labels (df : DataFrame) : list string := map label (columns df).

(** [col in df.columns] *)
Definition has_column (df : DataFrame) (col : string) : bool :=
  existsb (String.eqb col) (labels df).

Fixpoint index_of (col : string) (ls : list string) : option nat :=
  match ls with
  | [] => None
  | l :: rest =>
      if String.eqb col l then Some 0
      else option_map S (index_of col rest)
  end.

Definition cell_at (i : nat) (row : list cell) : cell := nth i row NaN.

(** [df[col]]: the dtype and the values of the column, top to bottom. *)
Definition getitem (df : DataFrame) (col : string) : option (dtype * list cell) :=
  match index_of col (labels df) with
  | Some i => Some (nth i (map col_dtype (columns df)) object,
                    map (cell_at i) (rows df))
  | None => None
  end.

Definition values (df : DataFrame) (col : string) : list cell :=
  match getitem df col with
  | Some (_, vs) => vs
  | None => []
  end.

(** [series == text]: a missing value and a number differ from any text. *)
Definition eq_scalar (v : string) (c : cell) : bool :=
  match c with
  | Str s => String.eqb s v
  | _ => false
  end.

Fixpoint select {A : Type} (mask : list bool) (l : list A) : list A :=
  match mask, l with
  | b :: mask', x :: l' => if b then x :: select mask' l' else select mask' l'
  | _, _ => []
  end.

(** [df[mask]]: the rows the mask keeps, under the same header. *)
Definition getitem_mask (df : DataFrame) (mask : list bool) : DataFrame :=
  mkFrame (columns df) (select mask (rows df)).

(** [df.empty] *)
Definition empty (df : DataFrame) : bool :=
  match columns df, rows df with
  | [], _ | _, [] => true
  | _, _ => false
  end.

(** ** Grouped counts

    [df.groupby(col).size()] keeps one group per distinct value that is
    not missing (the default [dropna=True]) and lists the groups by
    ascending key (the default [sort=True]). *)

Definition AggRows : Type := list (cell * nat).

Fixpoint bump (k : cell) (g : AggRows) : AggRows :=
  match g with
  | [] => [(k, 1)]
  | (k', n) :: g' =>
      match cell_compare k k' with
      | Eq => (k', S n) :: g'
      | Lt => (k, 1) :: g
      | Gt => (k', n) :: bump k g'
      end
  end.

Definition groupby_size (keys : list cell) : AggRows :=
  fold_left (fun g k => if isna k then g else bump k g) keys [].

Definition count_leb (ascending : bool) (a b : cell * nat) : bool :=
  if ascending then snd a <=? snd b else snd b <=? snd a.

Fixpoint insert_row (ascending : bool) (x : cell * nat) (l : AggRows) : AggRows :=
  match l with
  | [] => [x]
  | y :: l' =>
      if count_leb ascending x y then x :: l
      else y :: insert_row ascending x l'
  end.

(** [counts.sort_values("cantidad", ascending=...)].  pandas leaves the
    order among equal counts to the sorting routine; rows of equal count
    keep their order here. *)
Definition sort_values (ascending : bool) (g : AggRows) : AggRows :=
  fold_right (insert_row ascending) [] g.

(** [frame.tail(n)]: nothing for [n = 0], the last [n] rows for a positive
    [n], all rows but the first [-n] for a negative one. *)
Definition tail {A : Type} (n : Z) (l : list A) : list A :=
  if (n =? 0)%Z then []
  else if (0 <? n)%Z then skipn (length l - Z.to_nat n) l
  else skipn (Z.to_nat (- n)) l.

(** [series.unique()]: the values in order of first appearance. *)
Fixpoint unique (vs : list cell) : list cell :=
  match vs with
  | [] => []
  | v :: rest => v :: filter (fun x => negb (cell_eqb x v)) (unique rest)
  end.

(** [series.dropna()] *)
Definition dropna (vs : list cell) : list cell :=
  filter (fun v => negb (isna v)) vs.

(** [series.nunique()] *)
Definition nunique (vs : list cell) : nat := length (unique (dropna vs)).

(** [mask.sum()] on a boolean series *)
Definition count_true (mask : list bool) : nat :=
  length (filter (fun b => b) mask).

(** [round(x, 1)] on exact rationals: the nearest tenth, a tie going to the
    even one.  The binary64 arithmetic of the program is idealised as exact
    rational arithmetic. *)
Definition rint (q : Q) : Z :=
  let f := Qfloor q in
  match Qcompare (q - inject_Z f) (1 # 2) with
  | Lt => f
  | Gt => (f + 1)%Z
  | Eq => if Z.even f then f else (f + 1)%Z
  end.

Definition round1 (q : Q) : Q := Qmake (rint (q * 10)) 10.

(** ** processing.py *)

Module Processing.

(** The two-column frame the aggregations return: its labels and its rows
    (category, count). *)
Record AggTable : Type := mkAgg {
  agg_columns : list string;
  agg_rows : AggRows
}.

Section Cleaning.

(** What [pd.to_numeric] reads in one text value: the number, or nothing
    when the text is no numeric literal. *)
Variable to_numeric_scalar : string -> option Z.

(** [df.columns = df.columns.str.strip()] *)
Definition strip_columns (df : DataFrame) : DataFrame :=
  mkFrame (map (fun c => mkColumn (Text.strip (label c)) (col_dtype c)) (columns df))
          (rows df).

(** Cell by cell under the header: the cell under column [c] becomes
    [f c cell]; cells beyond the header are left alone. *)
Fixpoint map_cells (f : column -> cell -> cell) (cs : list column)
    (row : list cell) : list cell :=
  match cs, row with
  | c :: cs', x :: row' => f c x :: map_cells f cs' row'
  | _, _ => row
  end.

Definition fillna_cell (value : string) (c : column) (x : cell) : cell :=
  match col_dtype c, x with
  | object, NaN => Str value
  | _, _ => x
  end.

(** [text_cols = df.select_dtypes(include=["object"]).columns;
    df[text_cols] = df[text_cols].fillna(value)] *)
Definition fillna_text (value : string) (df : DataFrame) : DataFrame :=
  mkFrame (columns df) (map (map_cells (fillna_cell value) (columns df)) (rows df)).

(** [pd.to_numeric(series, errors="coerce")], value by value. *)
Definition to_numeric_coerce (x : cell) : cell :=
  match x with
  | Str s =>
      match to_numeric_scalar s with
      | Some z => Num z
      | None => NaN
      end
  | other => other
  end.

Fixpoint apply_at {A : Type} (i : nat) (f : A -> A) (l : list A) : list A :=
  match l, i with
  | [], _ => []
  | x :: l', 0 => f x :: l'
  | x :: l', S j => x :: apply_at j f l'
  end.

(** [df[col] = pd.to_numeric(df[col], errors="coerce")] for the column at
    position [i]. *)
Definition setitem_to_numeric (df : DataFrame) (i : nat) : DataFrame :=
  mkFrame (apply_at i (fun c => mkColumn (label c) numeric) (columns df))
          (map (apply_at i to_numeric_coerce) (rows df)).

(** One turn of the loop [for col in df.columns]. *)
Definition coerce_step (df : DataFrame) (col : string) : DataFrame :=
  match index_of col (labels df), getitem df col with
  | Some i, Some (dt, _) =>
      if Text.contains "Codigo" col && dtype_eqb dt object
      then setitem_to_numeric df i
      else df
  | _, _ => df
  end.

Definition clean_dataframe (df : DataFrame) : DataFrame :=
  let df := strip_columns df in
  let df := fillna_text "No informado" df in
  fold_left coerce_step (labels df) df.

End Cleaning.

(** The body shared by the three aggregations, which differ in the label
    given to the category column. *)
Definition agg_counts (df : DataFrame) (col name : string) : AggTable :=
  if negb (has_column df col) then mkAgg [name; "cantidad"] []
  else mkAgg [name; "cantidad"]
             (sort_values false (groupby_size (values df col))).

Definition agg_by_region (df : DataFrame) (region_col : string) : AggTable :=
  agg_counts df region_col "region".

Definition agg_by_tipo_establecimiento (df : DataFrame) (tipo_col : string) : AggTable :=
  agg_counts df tipo_col "tipo".

Definition agg_by_dependencia (df : DataFrame) (dep_col : string) : AggTable :=
  agg_counts df dep_col "dependencia".

Definition filter_by_region (df : DataFrame) (region region_col : string) : DataFrame :=
  if String.eqb region "Todas" || negb (has_column df region_col) then df
  else getitem_mask df (map (eq_scalar region) (values df region_col)).

Definition filter_by_tipo (df : DataFrame) (tipo tipo_col : string) : DataFrame :=
  if String.eqb tipo "Todos" || negb (has_column df tipo_col) then df
  else getitem_mask df (map (eq_scalar tipo) (values df tipo_col)).

Record KPIs : Type := mkKPIs {
  total_establecimientos : nat;
  regiones : nat;
  comunas : nat;
  pct_publico : Q;
  con_urgencia : nat
}.

(** [series.str]: the accessor exists on text columns only. *)
Definition str_accessor (s : dtype * list cell) : result (list cell) :=
  match fst s with
  | object => Ok (snd s)
  | numeric => Raise (AttributeError "Can only use .str accessor with string values!")
  end.

(** [series.str.contains(pat, case=..., na=...)] for one value, [pat] an
    alternation of literals: a value that is not text yields [na]. *)
Definition str_contains (alternatives : list string) (case na : bool) (x : cell) : bool :=
  match x with
  | Str s => Text.search alternatives case s
  | _ => na
  end.

Definition PUBLIC_PATTERN : list string :=
  ["Público"; "Servicio de Salud"; "Municipal"].

(** The local [publicos] of [calculate_kpis]. *)
Definition publicos (s : dtype * list cell) : result nat :=
  match str_accessor s with
  | Ok vs => Ok (count_true (map (str_contains PUBLIC_PATTERN false false) vs))
  | Raise e => Raise e
  end.

(** The test ["DependenciaAdministrativa" in df.columns] is the case
    analysis on [getitem], which finds a column exactly when the label is
    in the header; an exception raised on the way to [pct_publico] ends
    the call. *)
Definition calculate_kpis (df : DataFrame) : result KPIs :=
  let total := len df in
  let regiones :=
    if has_column df "RegionGlosa" then nunique (values df "RegionGlosa") else 0 in
  let comunas :=
    if has_column df "ComunaGlosa" then nunique (values df "ComunaGlosa") else 0 in
  let pct_publico : result Q :=
    match getitem df "DependenciaAdministrativa" with
    | Some s =>
        match publicos s with
        | Ok p =>
            Ok (if 0 <? total
                then (inject_Z (Z.of_nat p) / inject_Z (Z.of_nat total) * 100)%Q
                else 0%Q)
        | Raise e => Raise e
        end
    | None => Ok 0%Q
    end in
  match pct_publico with
  | Raise e => Raise e
  | Ok pct =>
      let con_urgencia :=
        if has_column df "TieneServicioUrgencia"
        then count_true (map (eq_scalar "Sí") (values df "TieneServicioUrgencia"))
        else 0 in
      Ok (mkKPIs total regiones comunas (round1 pct) con_urgencia)
  end.

End Processing.

(** ** viz.py: the table behind the top-communes chart *)

Module Viz.

Inductive Figure : Type :=
| NoData (message : string)
| Lollipop (counts : AggRows).

(** [plot_top_comunas], reduced to the rows it draws: the local [counts]. *)
Definition plot_top_comunas (df : DataFrame) (top_n : Z) : Figure :=
  if negb (has_column df "ComunaGlosa") || empty df
  then NoData "Sin datos disponibles"
  else Lollipop (tail top_n (sort_values true (groupby_size (values df "ComunaGlosa")))).

(** The rows of the chart, bottom to top; the placeholder draws none. *)
Definition drawn (fig : Figure) : AggRows :=
  match fig with
  | NoData _ => []
  | Lollipop counts => counts
  end.

End Viz.

(** ** api_client.py

    The portal is an oracle: the outcome of the [k]-th GET of a session,
    given the request.  The session state counts the GETs issued and the
    seconds slept between attempts. *)

Module ApiClient.

Definition BASE_URL : string := "https://datos.gob.cl".
Definition DEFAULT_TIMEOUT : Z := 30.
Definition MAX_RETRIES : Z := 3.
Definition RETRY_DELAY : Z := 2.

#[warnings="-register-all"]
Inductive json : Type :=
| JNull
| JBool (b : bool)
| JNum (z : Z)
| JStr (s : string)
| JList (items : list json)
| JDict (entries : list (string * json)).

Inductive param : Type :=
| PStr (s : string)
| PInt (z : Z).

Record Request : Type := mkRequest {
  req_url : string;
  req_params : list (string * param);
  req_timeout : Z
}.

(** A response as the client reads it: the status line and the body parsed
    as JSON, when it parses. *)
Record Response : Type := mkResponse {
  status_code : Z;
  body_json : option json
}.

(** [requests.get]: a response, or a [RequestException] when no response
    arrives (timeout, connection error). *)
Definition Network : Type := nat -> Request -> result Response.

Record Session : Type := mkSession {
  calls : nat;
  slept : Z
}.

Definition IO (A : Type) : Type := Session -> result A * Session.

Definition ret {A : Type} (a : A) : IO A := fun s => (Ok a, s).

Definition raise {A : Type} (e : exn) : IO A := fun s => (Raise e, s).

Definition bind {A B : Type} (m : IO A) (k : A -> IO B) : IO B :=
  fun s =>
    match m s with
    | (Ok a, s') => k a s'
    | (Raise e, s') => (Raise e, s')
    end.

Notation "x <- m ;; k" := (bind m (fun x => k))
  (at level 61, m at next level, right associativity).

(** [try: body  except requests.RequestException as e: handler e] *)
Definition try_except {A : Type} (body : IO A) (handler : string -> IO A) : IO A :=
  fun s =>
    match body s with
    | (Raise (RequestException why), s') => handler why s'
    | other => other
    end.

Definition lift {A : Type} (r : result A) : IO A := fun s => (r, s).

Definition sleep (seconds : Z) : IO unit :=
  fun s => (Ok tt, mkSession (calls s) (slept s + seconds)).

Section Client.

Variable net : Network.

Definition requests_get (req : Request) : IO Response :=
  fun s => (net (calls s) req, mkSession (S (calls s)) (slept s)).

(** [response.raise_for_status()] *)
Definition raise_for_status (r : Response) : IO unit :=
  if ((400 <=? status_code r) && (status_code r <? 600))%Z
  then raise (RequestException "HTTPError")
  else ret tt.

(** The loop [for attempt in range(retries)] from turn [attempt] on, with
    [todo] turns left, and the [raise last_exception] after it. *)
Fixpoint attempts (req : Request) (retries : Z) (todo : nat) (attempt : Z)
    (last_exception : option exn) : IO Response :=
  match todo with
  | 0 =>
      match last_exception with
      | Some e => raise e
      | None => raise (TypeError "exceptions must derive from BaseException")
      end
  | S todo' =>
      try_except
        (response <- requests_get req ;;
         _ <- raise_for_status response ;;
         ret response)
        (fun why =>
           _ <- (if (attempt <? retries - 1)%Z then sleep RETRY_DELAY else ret tt) ;;
           attempts req retries todo' (attempt + 1)%Z (Some (RequestException why)))
  end.

Definition _make_request (url : string) (params : list (string * param))
    (timeout retries : Z) : IO Response :=
  attempts (mkRequest url params timeout) retries (Z.to_nat retries) 0%Z None.

(** [response.json()] *)
Definition response_json (r : Response) : IO json :=
  match body_json r with
  | Some data => ret data
  | None => raise JSONDecodeError
  end.

Fixpoint lookup (key : string) (entries : list (string * json)) : option json :=
  match entries with
  | [] => None
  | (k, v) :: rest => if String.eqb key k then Some v else lookup key rest
  end.

(** [data.get(key)] *)
Definition dict_get (data : json) (key : string) : IO json :=
  match data with
  | JDict entries =>
      match lookup key entries with
      | Some v => ret v
      | None => ret JNull
      end
  | _ => raise (AttributeError "object has no attribute 'get'")
  end.

(** [data[key]] with a text key *)
Definition subscript (data : json) (key : string) : IO json :=
  match data with
  | JDict entries =>
      match lookup key entries with
      | Some v => ret v
      | None => raise (KeyError key)
      end
  | _ => raise (TypeError "indices must be integers or the object is not subscriptable")
  end.

(** Python's truth value *)
Definition truthy (v : json) : bool :=
  match v with
  | JNull => false
  | JBool b => b
  | JNum z => negb (z =? 0)%Z
  | JStr s => negb (String.eqb s "")
  | JList items => match items with [] => false | _ => true end
  | JDict entries => match entries with [] => false | _ => true end
  end.

Definition search_packages (query : string) (rows : Z) (base_url : string) : IO json :=
  let url := (base_url ++ "/api/3/action/package_search")%string in
  let params := [("q", PStr query); ("rows", PInt rows)] in
  response <- _make_request url params DEFAULT_TIMEOUT MAX_RETRIES ;;
  data <- response_json response ;;
  success <- dict_get data "success" ;;
  if negb (truthy success) then ret (JList [])
  else
    result <- subscript data "result" ;;
    subscript result "results".

End Client.

Definition fresh : Session := mkSession 0 0.

End ApiClient.

(** ** Frames as objects

    The filters hand frames around by reference.  The store lists the
    frames alive; a reference is a position in it and a new frame goes to
    the end. *)

Module Heap.

Definition ref : Type := nat.
Definition store : Type := list DataFrame.

Definition deref (h : store) (r : ref) : option DataFrame := nth_error h r.

Definition alloc (h : store) (df : DataFrame) : store * ref :=
  (h ++ [df], length h).

(** [df[mask]] builds a frame. *)
Definition getitem_mask (h : store) (df : ref) (mask : DataFrame -> list bool)
  : option (store * ref) :=
  match deref h df with
  | Some d => Some (alloc h (getitem_mask d (mask d)))
  | None => None
  end.

(** [df.copy()] builds another one with the same content. *)
Definition copy (h : store) (df : ref) : option (store * ref) :=
  match deref h df with
  | Some d => Some (alloc h d)
  | None => None
  end.

Definition filter_by_region (h : store) (df : ref) (region region_col : string)
  : option (store * ref) :=
  match deref h df with
  | None => None
  | Some d =>
      if String.eqb region "Todas" || negb (has_column d region_col)
      then Some (h, df)
      else
        match getitem_mask h df (fun d => map (eq_scalar region) (values d region_col)) with
        | Some (h1, selected) => copy h1 selected
        | None => None
        end
  end.

Definition filter_by_tipo (h : store) (df : ref) (tipo tipo_col : string)
  : option (store * ref) :=
  match deref h df with
  | None => None
  | Some d =>
      if String.eqb tipo "Todos" || negb (has_column d tipo_col)
      then Some (h, df)
      else
        match getitem_mask h df (fun d => map (eq_scalar tipo) (values d tipo_col)) with
        | Some (h1, selected) => copy h1 selected
        | None => None
        end
  end.

End Heap.

(** ** Vocabulary of the properties *)

(** *** Aggregates *)

(** The counts of an aggregate, top to bottom, and their sum. *)
Definition counts (g : AggRows) : list nat := map snd g.

Definition total_count (g : AggRows) : nat := list_sum (counts g).

(** The order [sort_values] establishes on the counts. *)
Definition in_order (ascending : bool) (m n : nat) : Prop :=
  if ascending then m <= n else n <= m.

(** *** Filters *)

(** The rows whose cell under the column is the wanted text, under the
    header of the frame; every row when the frame lacks the column. *)
Definition keep_rows (df : DataFrame) (v col : string) : DataFrame :=
  match index_of col (labels df) with
  | Some i => mkFrame (columns df)
                (filter (fun r => eq_scalar v (cell_at i r)) (rows df))
  | None => df
  end.

(** *** Cleaning *)

(** The labels are pairwise distinct. *)
Fixpoint distinct (ls : list string) : bool :=
  match ls with
  | [] => true
  | l :: rest => negb (existsb (String.eqb l) rest) && distinct rest
  end.

(** The test of the loop of [clean_dataframe] on a header, and what one
    turn of the loop makes of the header and of a cell under it. *)
Definition loop_test (c : column) : bool :=
  Text.contains "Codigo" (label c) && dtype_eqb (col_dtype c) object.

Definition loop_column (c : column) : column :=
  if loop_test c then mkColumn (label c) numeric else c.

Definition loop_cell (to_numeric_scalar : string -> option Z) (c : column)
    (x : cell) : cell :=
  if loop_test c then Processing.to_numeric_coerce to_numeric_scalar x else x.

(** The column is coerced by [clean_dataframe]: its stripped label holds
    "Codigo" and it is a text column. *)
Definition coerced (c : column) : bool :=
  Text.contains "Codigo" (Text.strip (label c)) && dtype_eqb (col_dtype c) object.


(** What cleaning makes of a column header and of a cell under it. *)
Definition cleaned_column (c : column) : column :=
  mkColumn (Text.strip (label c)) (if coerced c then numeric else col_dtype c).

Definition cleaned_cell (to_numeric_scalar : string -> option Z) (c : column)
    (x : cell) : cell :=
  let filled := Processing.fillna_cell "No informado" c x in
  if coerced c then Processing.to_numeric_coerce to_numeric_scalar filled else filled.

(** A reader of decimal integers, standing in for [pd.to_numeric] where an
    example needs one. *)
Definition digit (c : ascii) : option Z :=
  let n := nat_of_ascii c in
  if (48 <=? n) && (n <=? 57) then Some (Z.of_nat (n - 48)) else None.

Fixpoint digits (acc : Z) (s : string) : option Z :=
  match s with
  | EmptyString => Some acc
  | String c rest =>
      match digit c with
      | Some d => digits (10 * acc + d)%Z rest
      | None => None
      end
  end.

Definition decimal (s : string) : option Z :=
  match s with
  | EmptyString => None
  | String "-" (String c rest) => option_map Z.opp (digits 0 (String c rest))
  | _ => digits 0 s
  end.

(** *** The public share *)


(** The rows the specification counts as public: the value is present and
    holds one of the three wordings, whatever the case of its letters. *)
Definition is_public (x : cell) : bool :=
  match x with
  | Str s =>
      existsb (fun lit => Text.contains (Text.casefold lit) (Text.casefold s))
              ["Público"; "Servicio de Salud"; "Municipal"]
  | _ => false
  end.


(** *** The portal *)

(** What one attempt of the client makes of the [k]-th GET: the response,
    or the failure, an error status being one. *)
Definition outcome (net : ApiClient.Network) (k : nat) (req : ApiClient.Request)
  : result ApiClient.Response :=
  match net k req with
  | Ok r =>
      if ((400 <=? ApiClient.status_code r) && (ApiClient.status_code r <? 600))%Z
      then Raise (RequestException "HTTPError")
      else Ok r
  | Raise e => Raise e
  end.

(** The request [search_packages] sends. *)
Definition search_request (query : string) (rows : Z) (base_url : string)
  : ApiClient.Request :=
  ApiClient.mkRequest (base_url ++ "/api/3/action/package_search")%string
    [("q", ApiClient.PStr query); ("rows", ApiClient.PInt rows)]
    ApiClient.DEFAULT_TIMEOUT.

(** The truth value of [data.get("success")]. *)
Definition reports_success (entries : list (string * ApiClient.json)) : bool :=
  match ApiClient.lookup "success" entries with
  | Some v => ApiClient.truthy v
  | None => false
  end.

(** A portal out of reach: every GET ends in a connection error. *)
Definition unreachable : ApiClient.Network :=
  fun _ _ => Raise (RequestException "ConnectionError").

(** *** Sample frames *)

(** The frame of the specification's example: two facilities, every value
    present. *)
Definition sample : DataFrame :=
  mkFrame
    [mkColumn "RegionGlosa" object; mkColumn "ComunaGlosa" object;
     mkColumn "DependenciaAdministrativa" object]
    [[Str "Metropolitana"; Str "Santiago"; Str "Municipal"];
     [Str "Valparaíso"; Str "Viña del Mar"; Str "Privado"]].

(** The frame [read_csv] builds from a file whose second record leaves the
    region empty. *)
Definition sample_region_missing : DataFrame :=
  mkFrame
    [mkColumn "RegionGlosa" object; mkColumn "ComunaGlosa" object]
    [[Str "Metropolitana"; Str "Santiago"];
     [NaN; Str "Arica"]].

(** A raw frame with padded labels, a code column and missing values. *)
Definition sample_raw : DataFrame :=
  mkFrame
    [mkColumn " RegionGlosa" object; mkColumn "CodigoRegion " object;
     mkColumn "Camas" numeric]
    [[Str "Metropolitana"; Str "13"; Num 40];
     [NaN; Str "s/i"; NaN];
     [Str "Valparaíso"; NaN; Num 12]].




(** ** The rest of processing.py *)

(** Python's slices [l[:n]] and [l[n:]] (pandas' [head(n)], [iloc[:n]]
    and [iloc[n:]]): a negative [n] counts from the end, and both are
    clipped to the list. *)
Definition slice_index (n : Z) (len : nat) : nat :=
  if (n <? 0)%Z then len - Z.to_nat (- n) else Nat.min (Z.to_nat n) len.

Definition slice_to {A : Type} (n : Z) (l : list A) : list A :=
  firstn (slice_index n (length l)) l.

Definition slice_from {A : Type} (n : Z) (l : list A) : list A :=
  skipn (slice_index n (length l)) l.

Fixpoint insert_cell (x : cell) (l : list cell) : list cell :=
  match l with
  | [] => [x]
  | y :: l' =>
      match cell_compare x y with
      | Gt => y :: insert_cell x l'
      | _ => x :: l
      end
  end.

(** The values hold both texts and numbers: Python cannot order them. *)
Definition is_text (x : cell) : bool :=
  match x with Str _ => true | _ => false end.

Definition is_number (x : cell) : bool :=
  match x with Num _ => true | _ => false end.

Definition mixed (vs : list cell) : bool :=
  existsb is_text vs && existsb is_number vs.

(** [sorted(values)] *)
Definition sorted (vs : list cell) : result (list cell) :=
  if mixed vs
  then Raise (TypeError "'<' not supported between instances of 'str' and 'float'")
  else Ok (fold_right insert_cell [] vs).

Module ProcessingRest.

Definition get_unique_values (df : DataFrame) (column : string) : result (list cell) :=
  if negb (has_column df column) then Ok []
  else sorted (unique (dropna (values df column))).

(** [set(names)], listed by first occurrence; Python leaves the order in
    which [list] walks a set open. *)
Fixpoint set_of (names : list string) : list string :=
  match names with
  | [] => []
  | n :: rest => n :: filter (fun m => negb (String.eqb m n)) (set_of rest)
  end.

(** [a - b] on sets *)
Definition set_minus (a b : list string) : list string :=
  filter (fun n => negb (existsb (String.eqb n) b)) a.

Definition validate_required_columns (df : DataFrame) (required : list string)
  : bool * list string :=
  let existing := set_of (labels df) in
  let required_set := set_of required in
  let missing := set_minus required_set existing in
  (length missing =? 0, missing).

End ProcessingRest.

(** ** Python's operations on text *)

Module PyStr.

(** A byte that continues a character of UTF-8. *)
Definition is_continuation (c : ascii) : bool :=
  let n := nat_of_ascii c in (128 <=? n) && (n <? 192).

(** [len(s)]: the number of characters. *)
Fixpoint len (s : string) : nat :=
  match s with
  | EmptyString => 0
  | String c rest => (if is_continuation c then 0 else 1) + len rest
  end.

(** The first [k] characters. *)
Fixpoint take (k : nat) (s : string) : string :=
  match s with
  | EmptyString => EmptyString
  | String c rest =>
      if is_continuation c then String c (take k rest)
      else
        match k with
        | 0 => EmptyString
        | S k' => String c (take k' rest)
        end
  end.

(** [s[:n]] *)
Definition slice_to (n : Z) (s : string) : string :=
  if (n <? 0)%Z then take (len s - Z.to_nat (- n)) s else take (Z.to_nat n) s.

(** The characters of [s], as Python walks a text. *)
Fixpoint chars (s : string) : list string :=
  match s with
  | EmptyString => []
  | String c rest =>
      let continued :=
        match rest with
        | String c2 _ => is_continuation c2
        | EmptyString => false
        end in
      match chars rest with
      | first :: others =>
          if continued then String c first :: others
          else String c EmptyString :: first :: others
      | [] => [String c EmptyString]
      end
  end.

(** [s.lower()] on the ASCII capitals.  The callers look for the letters
    c, s and v, which no other character lowers to. *)
Fixpoint lower (s : string) : string :=
  match s with
  | EmptyString => EmptyString
  | String c rest =>
      let n := nat_of_ascii c in
      String (if (65 <=? n) && (n <=? 90) then ascii_of_nat (n + 32) else c) (lower rest)
  end.

(** [s.replace(old, new)] for one-character [old] and [new]. *)
Fixpoint replace (old new : ascii) (s : string) : string :=
  match s with
  | EmptyString => EmptyString
  | String c rest => String (if Ascii.eqb c old then new else c) (replace old new rest)
  end.

(** [str(n)] of an integer. *)
Definition str_int (n : Z) : string :=
  DecimalString.NilZero.string_of_int (Z.to_int n).

(** A comma after every third digit, the digits read from the last one. *)
Fixpoint group_reversed (ds : list ascii) : list ascii :=
  match ds with
  | a :: b :: c :: ((_ :: _) as more) => a :: b :: c :: ","%char :: group_reversed more
  | _ => ds
  end.

Definition group (digits : string) : string :=
  string_of_list_ascii (rev (group_reversed (rev (list_ascii_of_string digits)))).

(** [f"{n:,}"] of an integer. *)
Definition format_thousands (n : Z) : string :=
  match str_int n with
  | String "-" digits => String "-" (group digits)
  | digits => group digits
  end.

End PyStr.

(** ** utils.py *)

Module Utils.

(** [format_number(n)] for an integer [n] and the default [decimals=0]; the
    branch of [decimals > 0] formats a float and is left out. *)
Definition format_number (n : Z) : string :=
  let formatted := PyStr.format_thousands n in
  PyStr.replace "X" "." (PyStr.replace "." "," (PyStr.replace "," "X" formatted)).

Definition truncate_text (text : string) (max_length : Z) : string :=
  if (Z.of_nat (PyStr.len text) <=? max_length)%Z then text
  else (PyStr.slice_to (max_length - 3) text ++ "...")%string.

End Utils.

(** ** The rest of viz.py

    The charts take the frame an aggregation returns, here its rows
    (category, count), every count positive; a chart is reduced to what it
    draws: the rows, the colour of each mark and the texts. *)

Module VizRest.

Definition CHART_COLORS : list string :=
  ["#8b5cf6"; "#a78bfa"; "#c4b5fd"; "#22d3ee"; "#34d399"; "#4ade80";
   "#fbbf24"; "#fb923c"; "#fb7185"; "#f472b6"; "#60a5fa"; "#38bdf8"].

(** [l * k] *)
Fixpoint times {A : Type} (l : list A) (k : nat) : list A :=
  match k with
  | 0 => []
  | S k' => l ++ times l k'
  end.

Definition _create_gradient_colors (n : Z) : list string :=
  if (n <=? Z.of_nat (length CHART_COLORS))%Z then slice_to n CHART_COLORS
  else slice_to n
         (times CHART_COLORS (Z.to_nat (n / Z.of_nat (length CHART_COLORS) + 1))).

Definition _format_number (n : Z) : string :=
  PyStr.replace "," "." (PyStr.format_thousands n).

(** [short_labels] are the labels of the charts that shorten them; the
    other charts label the marks with the categories of [data]. *)
Record Chart : Type := mkChart {
  data : AggRows;
  colors : list string;
  short_labels : list string;
  texts : list string
}.

Inductive Figure : Type :=
| NoData (message : string)
| Drawn (chart : Chart).

(** [str(label)] shortened to [limit] characters:
    [d[:limit] + "..." if len(d) > limit else d], which asks a text. *)
Definition shorten (limit : nat) (d : cell) : result string :=
  match d with
  | Str t =>
      Ok (if limit <? PyStr.len t
          then (PyStr.slice_to (Z.of_nat limit) t ++ "...")%string
          else t)
  | _ => Raise (TypeError "object of type 'float' has no len()")
  end.

Fixpoint shorten_all (limit : nat) (ds : list cell) : result (list string) :=
  match ds with
  | [] => Ok []
  | d :: rest =>
      match shorten limit d with
      | Raise e => Raise e
      | Ok t =>
          match shorten_all limit rest with
          | Raise e => Raise e
          | Ok ts => Ok (t :: ts)
          end
      end
  end.

Definition count_text (row : cell * nat) : string :=
  _format_number (Z.of_nat (snd row)).

(** With no row left by [head(top_n)] the largest count [max_val] is NaN
    and [set_xlim] refuses it. *)
Definition plot_bar_regiones (df_agg : AggRows) (top_n : Z) : result Figure :=
  match df_agg with
  | [] => Ok (NoData "Sin datos disponibles")
  | _ =>
      let data := sort_values true (slice_to top_n df_agg) in
      let n_bars := length data in
      let colors := rev (_create_gradient_colors (Z.of_nat n_bars)) in
      match data with
      | [] => Raise (ValueError "Axis limits cannot be NaN or Inf")
      | _ => Ok (Drawn (mkChart data colors [] (map count_text data)))
      end
  end.

Definition plot_donut_tipos (df_agg : AggRows) (top_n : Z) : result Figure :=
  match df_agg with
  | [] => Ok (NoData "Sin datos disponibles")
  | _ =>
      let data :=
        if (top_n <? Z.of_nat (length df_agg))%Z
        then slice_to (top_n - 1) df_agg
             ++ [(Str "Otros", list_sum (map snd (slice_from (top_n - 1) df_agg)))]
        else df_agg in
      let colors := _create_gradient_colors (Z.of_nat (length data)) in
      let total := list_sum (map snd data) in
      match shorten_all 25 (map fst data) with
      | Raise e => Raise e
      | Ok legend_labels =>
          Ok (Drawn (mkChart data colors legend_labels [_format_number (Z.of_nat total)]))
      end
  end.

Definition ACCENT_COLORS : list string :=
  ["#22d3ee"; "#34d399"; "#fbbf24"; "#fb7185"; "#60a5fa"; "#fb923c"; "#8b5cf6"].

Definition plot_bar_dependencia (df_agg : AggRows) : result Figure :=
  match df_agg with
  | [] => Ok (NoData "Sin datos disponibles")
  | _ =>
      let data := slice_to 7 df_agg in
      let n_bars := length data in
      let colors := slice_to (Z.of_nat n_bars) ACCENT_COLORS in
      match shorten_all 16 (map fst data) with
      | Raise e => Raise e
      | Ok labels => Ok (Drawn (mkChart data colors labels (map count_text data)))
      end
  end.

End VizRest.

(** ** The rest of api_client.py *)

Module ApiClientRest.

Import ApiClient.

(** [d.get(key, default)] on the entries of a dict *)
Definition get_or (entries : list (string * json)) (key : string) (default : json) : json :=
  match lookup key entries with
  | Some v => v
  | None => default
  end.

(** [data.get(key, default)] *)
Definition dict_get_default (data : json) (key : string) (default : json) : result json :=
  match data with
  | JDict entries => Ok (get_or entries key default)
  | _ => Raise (AttributeError "object has no attribute 'get'")
  end.

(** [for res in resources]: the values Python walks. *)
Definition iterate (resources : json) : result (list json) :=
  match resources with
  | JList items => Ok items
  | JDict entries => Ok (map (fun e => JStr (fst e)) entries)
  | JStr s => Ok (map JStr (PyStr.chars s))
  | _ => Raise (TypeError "object is not iterable")
  end.

(** The loop of [get_csv_resources_from_package] over the resources left,
    [csv_resources] being the list built so far. *)
Fixpoint collect (resources csv_resources : list json) : result (list json) :=
  match resources with
  | [] => Ok csv_resources
  | res :: rest =>
      match res with
      | JDict entries =>
          match get_or entries "format" (JStr "") with
          | JStr format =>
              let fmt := PyStr.lower format in
              if Text.contains "csv" fmt
              then collect rest
                     (csv_resources ++
                      [JDict [("id", get_or entries "id" JNull);
                              ("name", get_or entries "name" (JStr "Sin nombre"));
                              ("url", get_or entries "url" JNull);
                              ("description", get_or entries "description" (JStr ""))]])
              else collect rest csv_resources
          | _ => Raise (AttributeError "object has no attribute 'lower'")
          end
      | _ => Raise (AttributeError "object has no attribute 'get'")
      end
  end.

Definition get_csv_resources_from_package (package_info : json) : result (list json) :=
  match dict_get_default package_info "resources" (JList []) with
  | Raise e => Raise e
  | Ok resources =>
      match iterate resources with
      | Raise e => Raise e
      | Ok items => collect items []
      end
  end.

Section Client.

Variable net : Network.

(** [str(v)] of a JSON value that is no text, as an f-string prints it. *)
Variable str_of : json -> string.

(** [f"{v}"] *)
Definition formatted (v : json) : string :=
  match v with
  | JStr s => s
  | _ => str_of v
  end.

Definition fetch_package_info (package_id base_url : string) : IO json :=
  let url := (base_url ++ "/api/3/action/package_show")%string in
  let params := [("id", PStr package_id)] in
  response <- _make_request net url params DEFAULT_TIMEOUT MAX_RETRIES ;;
  data <- response_json response ;;
  success <- dict_get data "success" ;;
  if negb (truthy success)
  then
    error <- lift (dict_get_default data "error" (JStr "Desconocido")) ;;
    raise (ValueError ("Error al obtener el paquete: " ++ formatted error)%string)
  else subscript data "result".

End Client.

End ApiClientRest.

(** ** app.py *)

Module App.

Definition REQUIRED_COLUMNS : list string :=
  ["RegionGlosa"; "TipoEstablecimientoGlosa"; "DependenciaAdministrativa"; "ComunaGlosa"].

(** The local [df_f] of [main] once the three filters of the side bar are
    applied: the region, the type, then the dependency, the last one
    written out in [main] itself. *)
Definition df_f (df : DataFrame) (region tipo dependencia : string) : DataFrame :=
  let df_f := df in
  let df_f := Processing.filter_by_region df_f region "RegionGlosa" in
  let df_f := Processing.filter_by_tipo df_f tipo "TipoEstablecimientoGlosa" in
  if negb (String.eqb dependencia "Todas") && has_column df_f "DependenciaAdministrativa"
  then getitem_mask df_f
         (map (eq_scalar dependencia) (values df_f "DependenciaAdministrativa"))
  else df_f.

(** [get_package_resources] as it runs when the cache holds no answer:
    [except Exception] takes every error. *)
Definition get_package_resources (net : ApiClient.Network)
    (str_of : ApiClient.json -> string) (package_id : string)
  : ApiClient.IO (list ApiClient.json) :=
  fun s =>
    match ApiClient.bind
            (ApiClientRest.fetch_package_info net str_of package_id ApiClient.BASE_URL)
            (fun package_info =>
               ApiClient.lift (ApiClientRest.get_csv_resources_from_package package_info))
            s with
    | (Ok csv_resources, s') => (Ok csv_resources, s')
    | (Raise _, s') => (Ok [], s')
    end.

End App.

(** *** Vocabulary of the further properties *)

(** Strictly ascending in the order of the values. *)
Definition ascending (l : list cell) : Prop :=
  StronglySorted (fun a b => cell_compare a b = Lt) l.

(** The categories of an aggregate, top to bottom. *)
Definition categories (g : AggRows) : list cell := map fst g.

(** The row holds the wanted text under the column at position [i]. *)
Definition holds (v : string) (i : nat) (row : list cell) : bool :=
  eq_scalar v (cell_at i row).

(** The row passes a filter on [col] for the value [v], [all] being the
    word that switches the filter off: the filter is off, or the frame
    lacks the column, or the row holds the value under the column. *)
Definition passes (df : DataFrame) (v all col : string) (row : list cell) : bool :=
  String.eqb v all ||
  match index_of col (labels df) with
  | Some i => holds v i row
  | None => true
  end.

(** A decimal digit. *)
Definition is_digit (c : ascii) : bool :=
  let n := nat_of_ascii c in (48 <=? n) && (n <=? 57).

(** The text without the occurrences of one character. *)
Fixpoint without (c : ascii) (s : string) : string :=
  match s with
  | EmptyString => EmptyString
  | String a rest => if Ascii.eqb a c then without c rest else String a (without c rest)
  end.

(** The request [fetch_package_info] sends. *)
Definition package_request (package_id base_url : string) : ApiClient.Request :=
  ApiClient.mkRequest (base_url ++ "/api/3/action/package_show")%string
    [("id", ApiClient.PStr package_id)] ApiClient.DEFAULT_TIMEOUT.

(** The first [j] GETs from the [k]-th on fail as requests do. *)
Definition fail_from (net : ApiClient.Network) (req : ApiClient.Request) (k j : nat) : Prop :=
  forall i, i < j -> exists why, outcome net (k + i) req = Raise (RequestException why).

(** What [fetch_package_info] makes of the response it got. *)
Definition read_package (str_of : ApiClient.json -> string) (r : ApiClient.Response)
  : result ApiClient.json :=
  match ApiClient.body_json r with
  | None => Raise JSONDecodeError
  | Some (ApiClient.JDict entries) =>
      if reports_success entries
      then match ApiClient.lookup "result" entries with
           | Some v => Ok v
           | None => Raise (KeyError "result")
           end
      else Raise (ValueError
                    ("Error al obtener el paquete: "
                     ++ ApiClientRest.formatted str_of
                          (ApiClientRest.get_or entries "error" (ApiClient.JStr "Desconocido")))%string)
  | Some _ => Raise (AttributeError "object has no attribute 'get'")
  end.





(** The keys of a JSON object. *)
Definition keys (v : ApiClient.json) : list string :=
  match v with
  | ApiClient.JDict entries => map fst entries
  | _ => []
  end.

(** A portal that answers every GET with the same JSON. *)
Definition portal (reply : ApiClient.json) : ApiClient.Network :=
  fun _ _ => Ok (ApiClient.mkResponse 200 (Some reply)).

(** A package with one CSV resource and one PDF resource. *)
Definition sample_package : ApiClient.json :=
  ApiClient.JDict
    [("id", ApiClient.JStr "establecimientos");
     ("resources",
      ApiClient.JList
        [ApiClient.JDict [("id", ApiClient.JStr "r1"); ("format", ApiClient.JStr "CSV");
                          ("url", ApiClient.JStr "https://datos.gob.cl/r1.csv")];
         ApiClient.JDict [("id", ApiClient.JStr "r2"); ("format", ApiClient.JStr "PDF");
                          ("url", ApiClient.JStr "https://datos.gob.cl/r2.pdf")]])].

(** [str] of a JSON value, left open by the samples. *)
Definition no_text : ApiClient.json -> string := fun _ => "".

(** The answer of the portal that carries [sample_package]. *)
Definition sample_reply : ApiClient.json :=
  ApiClient.JDict [("success", ApiClient.JBool true); ("result", sample_package)].

(** An answer that refuses the package, as CKAN words it. *)
Definition sample_refusal : ApiClient.json :=
  ApiClient.JDict
    [("success", ApiClient.JBool false); ("error", ApiClient.JStr "Not found")].

(** ** Facts about text *)

Section StripFacts.

Variable sp1 : ascii -> bool.
Variable sp2 : ascii -> ascii -> bool.
Variable sp3 : ascii -> ascii -> ascii -> bool.







End StripFacts.





(** ** Facts about lists, groups and sorting *)

Section ListFacts.

Context {A : Type}.

Lemma select_map (p : A -> bool) (l : list A) :
  select (map p l) l = filter p l.
Proof.
  induction l as [|x l IH]; simpl; [reflexivity|].
  rewrite IH. reflexivity.
Qed.

Lemma filter_swap (p q : A -> bool) (l : list A) :
  filter p (filter q l) = filter q (filter p l).
Proof.
  induction l as [|x l IH]; simpl; [reflexivity|].
  destruct (q x) eqn:Eq, (p x) eqn:Ep; simpl; rewrite ?Eq, ?Ep, IH; reflexivity.
Qed.

Lemma tail_length (n : Z) (l : list A) :
  (0 <= n)%Z -> (Z.of_nat (length (tail n l)) <= n)%Z.
Proof.
  intros Hn. unfold tail.
  destruct (n =? 0)%Z eqn:E0; [simpl; lia|].
  destruct (0 <? n)%Z eqn:Epos.
  - rewrite length_skipn. lia.
  - apply Z.ltb_ge in Epos. apply Z.eqb_neq in E0. lia.
Qed.

Lemma tail_is_suffix (n : Z) (l : list A) :
  exists k, tail n l = skipn k l.
Proof.
  unfold tail.
  destruct (n =? 0)%Z.
  - exists (length l). rewrite skipn_all. reflexivity.
  - destruct (0 <? n)%Z; eexists; reflexivity.
Qed.

End ListFacts.

Lemma StronglySorted_skipn {A : Type} (R : A -> A -> Prop) (k : nat) (l : list A) :
  StronglySorted R l -> StronglySorted R (skipn k l).
Proof.
  revert l. induction k as [|k IH]; intros l H; simpl; [exact H|].
  destruct l as [|x l]; [constructor|].
  apply IH. inversion H; assumption.
Qed.

Lemma count_true_filter {A : Type} (p : A -> bool) (l : list A) :
  count_true (map p l) = length (filter p l).
Proof.
  unfold count_true.
  induction l as [|x l IH]; simpl; [reflexivity|].
  destruct (p x); simpl; rewrite IH; reflexivity.
Qed.

Section GroupFacts.

Lemma total_count_bump (k : cell) (g : AggRows) :
  total_count (bump k g) = S (total_count g).
Proof.
  unfold total_count, counts.
  induction g as [|[k' n] g IH]; simpl; [reflexivity|].
  destruct (cell_compare k k'); simpl; [reflexivity | reflexivity |].
  rewrite IH. lia.
Qed.

Lemma total_count_groups (keys : list cell) (g : AggRows) :
  total_count (fold_left (fun g k => if isna k then g else bump k g) keys g)
  = total_count g + length (dropna keys).
Proof.
  revert g. induction keys as [|k keys IH]; intros g; simpl; [lia|].
  rewrite IH. unfold dropna at 2. simpl.
  destruct (isna k); simpl; [reflexivity|].
  rewrite total_count_bump. fold (dropna keys). lia.
Qed.

Lemma total_count_groupby_size (keys : list cell) :
  total_count (groupby_size keys) = length (dropna keys).
Proof.
  unfold groupby_size. rewrite total_count_groups. reflexivity.
Qed.

Lemma dropna_all_present (keys : list cell) :
  forallb (fun k => negb (isna k)) keys = true -> dropna keys = keys.
Proof.
  unfold dropna. induction keys as [|k keys IH]; simpl; [reflexivity|].
  intros H. apply andb_true_iff in H as [Hk Hrest].
  rewrite Hk, IH by assumption. reflexivity.
Qed.

Lemma insert_row_permutation (asc : bool) (x : cell * nat) (l : AggRows) :
  Permutation (x :: l) (insert_row asc x l).
Proof.
  induction l as [|y l IH]; simpl; [reflexivity|].
  destruct (count_leb asc x y); [reflexivity|].
  rewrite perm_swap. apply perm_skip, IH.
Qed.

Lemma sort_values_permutation (asc : bool) (g : AggRows) :
  Permutation g (sort_values asc g).
Proof.
  induction g as [|x g IH]; simpl; [constructor|].
  rewrite <- insert_row_permutation. apply perm_skip, IH.
Qed.

Lemma total_count_permutation (g g' : AggRows) :
  Permutation g g' -> total_count g = total_count g'.
Proof.
  intros H. unfold total_count, counts.
  induction H; simpl; lia.
Qed.

Lemma count_leb_in_order (asc : bool) (a b : cell * nat) :
  count_leb asc a b = true <-> in_order asc (snd a) (snd b).
Proof.
  unfold count_leb, in_order. destruct asc; apply Nat.leb_le.
Qed.

Lemma count_leb_false (asc : bool) (a b : cell * nat) :
  count_leb asc a b = false -> in_order asc (snd b) (snd a).
Proof.
  unfold count_leb, in_order. destruct asc; intros H; apply Nat.leb_gt in H; lia.
Qed.

Lemma in_order_trans (asc : bool) (a b c : nat) :
  in_order asc a b -> in_order asc b c -> in_order asc a c.
Proof. unfold in_order. destruct asc; lia. Qed.

Lemma insert_row_sorted (asc : bool) (x : cell * nat) (l : AggRows) :
  StronglySorted (in_order asc) (counts l) ->
  StronglySorted (in_order asc) (counts (insert_row asc x l)).
Proof.
  induction l as [|y l IH]; intros H; simpl.
  - repeat constructor.
  - destruct (count_leb asc x y) eqn:E.
    + simpl. constructor; [exact H|].
      apply count_leb_in_order in E.
      inversion H as [|? ? _ Hall]; subst.
      constructor; [exact E|].
      eapply Forall_impl; [|exact Hall].
      intros c Hc. eapply in_order_trans; eassumption.
    + apply count_leb_false in E.
      inversion H as [|? ? Hl Hall]; subst.
      simpl. constructor; [apply IH, Hl|].
      unfold counts.
      eapply Permutation_Forall.
      * apply Permutation_map, insert_row_permutation.
      * simpl. constructor; assumption.
Qed.

Lemma sort_values_sorted (asc : bool) (g : AggRows) :
  StronglySorted (in_order asc) (counts (sort_values asc g)).
Proof.
  induction g as [|x g IH]; simpl; [constructor|].
  apply insert_row_sorted, IH.
Qed.

End GroupFacts.

(** ** Facts about frames *)

Section FrameFacts.

Lemma index_of_has (col : string) (ls : list string) :
  existsb (String.eqb col) ls = true -> exists i, index_of col ls = Some i.
Proof.
  induction ls as [|l ls IH]; simpl; [discriminate|].
  destruct (String.eqb col l); simpl; [eauto|].
  intros H. destruct (IH H) as [i ->]. simpl. eauto.
Qed.

Lemma values_length (df : DataFrame) (col : string) :
  has_column df col = true -> length (values df col) = len df.
Proof.
  unfold has_column, values, getitem, len. intros H.
  destruct (index_of_has _ _ H) as [i ->].
  apply length_map.
Qed.

(** A filter that applies keeps the rows whose cell under the column is
    the wanted text. *)
Lemma mask_rows (df : DataFrame) (v col : string) :
  has_column df col = true ->
  exists i, index_of col (labels df) = Some i /\
    getitem_mask df (map (eq_scalar v) (values df col))
    = mkFrame (columns df) (filter (fun r => eq_scalar v (cell_at i r)) (rows df)).
Proof.
  unfold has_column. intros H.
  destruct (index_of_has _ _ H) as [i Hi].
  exists i. split; [exact Hi|].
  unfold getitem_mask, values, getitem. rewrite Hi.
  rewrite map_map, select_map. reflexivity.
Qed.

(** A filter that is not switched off keeps the rows selected by
    [keep_rows]; a column the frame lacks selects them all. *)
Lemma filter_by_cases (df : DataFrame) (v col all : string) :
  (if String.eqb v all || negb (has_column df col) then df
   else getitem_mask df (map (eq_scalar v) (values df col)))
  = if String.eqb v all then df else keep_rows df v col.
Proof.
  unfold keep_rows.
  destruct (String.eqb v all); simpl; [reflexivity|].
  destruct (has_column df col) eqn:H; simpl.
  - destruct (mask_rows df v col H) as [i [-> ->]]. reflexivity.
  - unfold has_column in H.
    destruct (index_of col (labels df)) eqn:E; [|reflexivity].
    exfalso. revert n E H. generalize (labels df).
    induction l as [|x l IH]; simpl; intros n E H; [discriminate|].
    destruct (String.eqb col x); simpl in *; [discriminate|].
    destruct (index_of col l); [|discriminate]. eapply IH; eauto.
Qed.

Lemma filter_by_region_cases (df : DataFrame) (region region_col : string) :
  Processing.filter_by_region df region region_col
  = if String.eqb region "Todas" then df else keep_rows df region region_col.
Proof. apply filter_by_cases. Qed.

Lemma filter_by_tipo_cases (df : DataFrame) (tipo tipo_col : string) :
  Processing.filter_by_tipo df tipo tipo_col
  = if String.eqb tipo "Todos" then df else keep_rows df tipo tipo_col.
Proof. apply filter_by_cases. Qed.

End FrameFacts.

(** ** The example of the specification

    The two-facility frame: one facility per region, two regions, two
    communes, one public facility out of two. *)

Example sample_by_region :
  Processing.agg_by_region sample "RegionGlosa"
  = Processing.mkAgg ["region"; "cantidad"]
      [(Str "Metropolitana", 1); (Str "Valparaíso", 1)].
Proof. reflexivity. Qed.

Example sample_kpis :
  Processing.calculate_kpis sample = Ok (Processing.mkKPIs 2 2 2 (500 # 10) 0).
Proof. reflexivity. Qed.

Example sample_raw_cleaned :
  Processing.clean_dataframe decimal sample_raw
  = mkFrame
      [mkColumn "RegionGlosa" object; mkColumn "CodigoRegion" numeric;
       mkColumn "Camas" numeric]
      [[Str "Metropolitana"; Num 13; Num 40];
       [Str "No informado"; NaN; NaN];
       [Str "Valparaíso"; NaN; Num 12]].
Proof. reflexivity. Qed.

Example public_wordings :
  map is_public
    [Str "Municipal"; Str "SERVICIO DE SALUD"; Str "Sistema PÚBLICO"; Str "Privado"; NaN]
  = [true; true; true; false; false].
Proof. reflexivity. Qed.

(** ** Aggregation *)

Section Aggregation.

Import Processing.

Lemma agg_counts_total (df : DataFrame) (col name : string) :
  has_column df col = true ->
  total_count (agg_rows (agg_counts df col name)) = length (dropna (values df col)).
Proof.
  intros H. unfold agg_counts. rewrite H. simpl.
  rewrite <- (total_count_permutation _ _ (sort_values_permutation false _)).
  apply total_count_groupby_size.
Qed.

Lemma agg_counts_sorted (df : DataFrame) (col name : string) :
  StronglySorted ge (counts (agg_rows (agg_counts df col name))).
Proof.
  unfold agg_counts.
  destruct (has_column df col); simpl; [|constructor].
  exact (sort_values_sorted false _).
Qed.

Lemma top_comunas_sorted (df : DataFrame) (n : Z) :
  StronglySorted le (counts (Viz.drawn (Viz.plot_top_comunas df n))).
Proof.
  unfold Viz.plot_top_comunas.
  destruct (negb (has_column df "ComunaGlosa") || empty df); simpl; [constructor|].
  destruct (tail_is_suffix n (sort_values true (groupby_size (values df "ComunaGlosa"))))
    as [k ->].
  unfold counts. rewrite <- skipn_map.
  apply StronglySorted_skipn.
  exact (sort_values_sorted true _).
Qed.

Lemma top_comunas_length (df : DataFrame) (n : Z) :
  (0 <= n)%Z ->
  (Z.of_nat (length (Viz.drawn (Viz.plot_top_comunas df n))) <= n)%Z.
Proof.
  intros Hn. unfold Viz.plot_top_comunas.
  destruct (negb (has_column df "ComunaGlosa") || empty df); simpl; [exact Hn|].
  apply tail_length, Hn.
Qed.

End Aggregation.

(** C1, as amended.  For a grouping column present in the frame, the counts
    of each of the three aggregates add up to the number of rows whose
    value in that column is not missing; when no value of the column is
    missing, that is the row count of the frame. *)
Theorem agg_counts_sum (df : DataFrame) (col : string) :
  has_column df col = true ->
  total_count (Processing.agg_rows (Processing.agg_by_region df col))
    = length (dropna (values df col)) /\
  total_count (Processing.agg_rows (Processing.agg_by_tipo_establecimiento df col))
    = length (dropna (values df col)) /\
  total_count (Processing.agg_rows (Processing.agg_by_dependencia df col))
    = length (dropna (values df col)) /\
  (forallb (fun v => negb (isna v)) (values df col) = true ->
   length (dropna (values df col)) = len df).
Proof.
  intros H.
  split; [apply agg_counts_total, H|].
  split; [apply agg_counts_total, H|].
  split; [apply agg_counts_total, H|].
  intros Hall. rewrite (dropna_all_present _ Hall).
  apply values_length, H.
Qed.

Lemma agg_counts_sum_witness :
  has_column sample "RegionGlosa" = true /\
  total_count (Processing.agg_rows (Processing.agg_by_region sample "RegionGlosa")) = 2 /\
  len sample = 2.
Proof.
  split; [reflexivity|].
  destruct (agg_counts_sum sample "RegionGlosa" eq_refl) as [Hsum [_ [_ Hall]]].
  split.
  - rewrite Hsum. reflexivity.
  - rewrite <- (Hall eq_refl). reflexivity.
Defined.

(** C1 as stated fails: a region left empty in the file is a missing value,
    [groupby] drops the row, and the counts add up to one for two rows. *)
Lemma agg_counts_sum_counterexample :
  has_column sample_region_missing "RegionGlosa" = true /\
  len sample_region_missing = 2 /\
  total_count (Processing.agg_rows
                 (Processing.agg_by_region sample_region_missing "RegionGlosa")) = 1 /\
  total_count (Processing.agg_rows
                 (Processing.agg_by_region sample_region_missing "RegionGlosa"))
  <> len sample_region_missing.
Proof. split; [|split; [|split]]; try reflexivity. discriminate. Qed.

(** C2.  Whatever the frame, the three aggregates list their counts in
    non-increasing order; the rows of the top-communes chart are in
    non-decreasing order of count and, for a number [n] of communes asked
    for that is not negative, there are at most [n] of them. *)
Theorem aggregates_sorted (df : DataFrame) (col : string) (n : Z) :
  StronglySorted ge (counts (Processing.agg_rows (Processing.agg_by_region df col))) /\
  StronglySorted ge
    (counts (Processing.agg_rows (Processing.agg_by_tipo_establecimiento df col))) /\
  StronglySorted ge (counts (Processing.agg_rows (Processing.agg_by_dependencia df col))) /\
  StronglySorted le (counts (Viz.drawn (Viz.plot_top_comunas df n))) /\
  ((0 <= n)%Z ->
   (Z.of_nat (length (Viz.drawn (Viz.plot_top_comunas df n))) <= n)%Z).
Proof.
  split; [apply agg_counts_sorted|].
  split; [apply agg_counts_sorted|].
  split; [apply agg_counts_sorted|].
  split; [apply top_comunas_sorted | apply top_comunas_length].
Qed.

Lemma aggregates_sorted_witness :
  (0 <= 1)%Z /\
  StronglySorted le (counts (Viz.drawn (Viz.plot_top_comunas sample 1))) /\
  (Z.of_nat (length (Viz.drawn (Viz.plot_top_comunas sample 1))) <= 1)%Z.
Proof.
  split; [lia|].
  destruct (aggregates_sorted sample "RegionGlosa" 1) as [_ [_ [_ [Hs Hn]]]].
  split; [exact Hs | apply Hn; lia].
Defined.

(** ** Filtering *)

(** C6.  With the word that stands for "all" ("Todas" for the region,
    "Todos" for the type), or with a filter column the frame does not
    have, a filter returns the frame it was given: same header, same rows. *)
Theorem filter_all_is_identity (df : DataFrame) (v col : string) :
  Processing.filter_by_region df "Todas" col = df /\
  Processing.filter_by_tipo df "Todos" col = df /\
  (has_column df col = false ->
   Processing.filter_by_region df v col = df /\
   Processing.filter_by_tipo df v col = df).
Proof.
  unfold Processing.filter_by_region, Processing.filter_by_tipo.
  split; [reflexivity|]. split; [reflexivity|].
  intros H. rewrite H. simpl. rewrite !orb_true_r. split; reflexivity.
Qed.

Lemma filter_all_is_identity_witness :
  has_column sample "Sector" = false /\
  Processing.filter_by_region sample "Arica" "Sector" = sample /\
  Processing.filter_by_tipo sample "Hospital" "Sector" = sample.
Proof.
  split; [reflexivity|].
  destruct (filter_all_is_identity sample "Arica" "Sector") as [_ [_ H]].
  destruct (H eq_refl) as [Hr _].
  destruct (filter_all_is_identity sample "Hospital" "Sector") as [_ [_ H']].
  destruct (H' eq_refl) as [_ Ht].
  split; assumption.
Defined.

Lemma keep_rows_commute (df : DataFrame) (a ca b cb : string) :
  keep_rows (keep_rows df a ca) b cb = keep_rows (keep_rows df b cb) a ca.
Proof.
  unfold keep_rows, labels.
  destruct (index_of ca (map label (columns df))) as [i|] eqn:Ei;
  destruct (index_of cb (map label (columns df))) as [j|] eqn:Ej;
    simpl; rewrite ?Ei, ?Ej; try reflexivity.
  f_equal. apply filter_swap.
Qed.

(** C7.  Filtering by region and then by type gives the same frame, hence
    the same rows, as filtering by type and then by region, for every
    pair of values and every pair of columns. *)
Theorem filters_commute (df : DataFrame) (region tipo region_col tipo_col : string) :
  Processing.filter_by_region (Processing.filter_by_tipo df tipo tipo_col) region region_col
  = Processing.filter_by_tipo (Processing.filter_by_region df region region_col) tipo tipo_col.
Proof.
  rewrite !filter_by_region_cases, !filter_by_tipo_cases.
  destruct (String.eqb region "Todas"), (String.eqb tipo "Todos"); try reflexivity.
  apply keep_rows_commute.
Qed.

(** ** Cleaning *)

Section CleaningFacts.

Import Processing.

Variable to_numeric_scalar : string -> option Z.

Lemma map_cells_ext (f g : column -> cell -> cell) (cs : list column) (row : list cell) :
  (forall c x, f c x = g c x) -> map_cells f cs row = map_cells g cs row.
Proof.
  intros H. revert row. induction cs as [|c cs IH]; intros [|x row]; simpl; try reflexivity.
  rewrite H, IH. reflexivity.
Qed.

Lemma map_cells_compose (f g : column -> cell -> cell) (cs : list column) (row : list cell) :
  map_cells g cs (map_cells f cs row) = map_cells (fun c x => g c (f c x)) cs row.
Proof.
  revert row. induction cs as [|c cs IH]; intros [|x row]; simpl; try reflexivity.
  rewrite IH. reflexivity.
Qed.

Lemma map_cells_map (f : column -> cell -> cell) (h : column -> column)
    (cs : list column) (row : list cell) :
  map_cells f (map h cs) row = map_cells (fun c => f (h c)) cs row.
Proof.
  revert row. induction cs as [|c cs IH]; intros [|x row]; simpl; try reflexivity.
  rewrite IH. reflexivity.
Qed.

Lemma map_cells_snoc (f : column -> cell -> cell) (pre : list column) (c : column)
    (row : list cell) :
  map_cells f (pre ++ [c]) row = apply_at (length pre) (f c) (map_cells f pre row).
Proof.
  revert row. induction pre as [|p pre IH]; intros [|x row]; simpl;
    rewrite ?IH; reflexivity.
Qed.

Lemma map_cells_nth (f : column -> cell -> cell) (cs : list column) (row : list cell)
    (i : nat) (c : column) (x : cell) :
  nth_error cs i = Some c -> nth_error row i = Some x ->
  nth_error (map_cells f cs row) i = Some (f c x).
Proof.
  revert row i. induction cs as [|c0 cs IH]; intros [|x0 row] [|i]; simpl;
    try discriminate.
  - intros [= ->] [= ->]. reflexivity.
  - apply IH.
Qed.

Lemma apply_at_id {A : Type} (i : nat) (f : A -> A) (l : list A) :
  (forall x, f x = x) -> apply_at i f l = l.
Proof.
  intros H. revert i. induction l as [|x l IH]; intros [|i]; simpl;
    rewrite ?H, ?IH; reflexivity.
Qed.

Lemma apply_at_ext {A : Type} (i : nat) (f g : A -> A) (l : list A) :
  (forall x, f x = g x) -> apply_at i f l = apply_at i g l.
Proof.
  intros H. revert i. induction l as [|x l IH]; intros [|i]; simpl;
    rewrite ?H, ?(IH i); reflexivity.
Qed.

Lemma apply_at_middle {A : Type} (f : A -> A) (pre : list A) (x : A) (post : list A) :
  apply_at (length pre) f (pre ++ x :: post) = pre ++ f x :: post.
Proof.
  induction pre as [|p pre IH]; simpl; [reflexivity|].
  rewrite IH. reflexivity.
Qed.

Lemma index_of_middle (l : string) (pre post : list string) :
  ~ In l pre -> index_of l (pre ++ l :: post) = Some (length pre).
Proof.
  induction pre as [|p pre IH]; simpl; intros H.
  - rewrite String.eqb_refl. reflexivity.
  - destruct (String.eqb_spec l p) as [->|_]; [exfalso; auto|].
    rewrite IH by auto. reflexivity.
Qed.

Lemma dtype_middle (pre post : list column) (c : column) :
  nth (length pre) (map col_dtype (pre ++ c :: post)) object = col_dtype c.
Proof.
  rewrite map_app. simpl.
  rewrite <- (length_map col_dtype pre). apply nth_middle.
Qed.

Lemma loop_column_label (c : column) : label (loop_column c) = label c.
Proof. unfold loop_column. destruct (loop_test c); reflexivity. Qed.

Lemma coerce_step_at (pre post : list column) (c : column) (rs : list (list cell)) :
  ~ In (label c) (map label pre) ->
  coerce_step to_numeric_scalar
    (mkFrame (map loop_column pre ++ c :: post)
             (map (map_cells (loop_cell to_numeric_scalar) pre) rs))
    (label c)
  = mkFrame (map loop_column (pre ++ [c]) ++ post)
            (map (map_cells (loop_cell to_numeric_scalar) (pre ++ [c])) rs).
Proof.
  intros Hfresh.
  assert (Hi : index_of (label c)
                 (labels (mkFrame (map loop_column pre ++ c :: post)
                            (map (map_cells (loop_cell to_numeric_scalar) pre) rs)))
               = Some (length (map loop_column pre))).
  { unfold labels. simpl. rewrite map_app. simpl.
    rewrite <- (length_map label (map loop_column pre)).
    apply index_of_middle.
    rewrite map_map. rewrite (map_ext _ label) by apply loop_column_label. exact Hfresh. }
  unfold coerce_step, getitem. rewrite Hi.
  cbn [columns rows].
  rewrite dtype_middle. fold (loop_test c).
  unfold setitem_to_numeric. cbn [columns rows].
  rewrite apply_at_middle, length_map.
  rewrite map_app, <- app_assoc. cbn [map app].
  assert (Hc : loop_column c = if loop_test c then mkColumn (label c) numeric else c)
    by reflexivity.
  assert (Hx : forall x, loop_cell to_numeric_scalar c x
                         = if loop_test c then to_numeric_coerce to_numeric_scalar x else x)
    by reflexivity.
  destruct (loop_test c); rewrite Hc; f_equal.
  - rewrite map_map. apply map_ext. intros r.
    rewrite map_cells_snoc. apply apply_at_ext. intros x. symmetry. apply Hx.
  - apply map_ext. intros r.
    rewrite map_cells_snoc, apply_at_id; [reflexivity | exact Hx].
Qed.

Lemma coerce_loop (pre post : list column) (rs : list (list cell)) :
  NoDup (map label (pre ++ post)) ->
  fold_left (coerce_step to_numeric_scalar) (map label post)
    (mkFrame (map loop_column pre ++ post)
             (map (map_cells (loop_cell to_numeric_scalar) pre) rs))
  = mkFrame (map loop_column (pre ++ post))
            (map (map_cells (loop_cell to_numeric_scalar) (pre ++ post)) rs).
Proof.
  revert pre. induction post as [|c post IH]; intros pre Hnd; simpl.
  - rewrite !app_nil_r. reflexivity.
  - rewrite coerce_step_at.
    + replace (pre ++ c :: post) with ((pre ++ [c]) ++ post)
        by (rewrite <- app_assoc; reflexivity).
      apply IH. rewrite <- app_assoc. exact Hnd.
    + rewrite map_app in Hnd. simpl in Hnd.
      apply NoDup_remove_2 in Hnd. intros Hin. apply Hnd.
      apply in_or_app. left. exact Hin.
Qed.





(** [clean_dataframe] in closed form: every header is cleaned by
    [cleaned_column] and every cell under it by [cleaned_cell]. *)
Lemma clean_dataframe_closed (df : DataFrame) :
  NoDup (map Text.strip (labels df)) ->
  clean_dataframe to_numeric_scalar df
  = mkFrame (map cleaned_column (columns df))
            (map (map_cells (cleaned_cell to_numeric_scalar) (columns df)) (rows df)).
Proof.
  intros Hnd. unfold clean_dataframe, fillna_text, strip_columns, labels.
  cbn [columns rows].
  set (cs := map (fun c => mkColumn (Text.strip (label c)) (col_dtype c)) (columns df)).
  assert (Hnd' : NoDup (map label ([] ++ cs))).
  { simpl. unfold cs. rewrite map_map. simpl.
    unfold labels in Hnd. rewrite map_map in Hnd. exact Hnd. }
  pose proof (coerce_loop [] cs
                (map (map_cells (fillna_cell "No informado") cs) (rows df)) Hnd') as H.
  cbn [map app] in H.
  rewrite (map_ext (map_cells (loop_cell to_numeric_scalar) []) (fun r => r)) in H
    by reflexivity.
  rewrite map_id in H. rewrite H. clear H Hnd'.
  f_equal.
  - unfold cs. rewrite map_map. apply map_ext. intros c.
    unfold loop_column, loop_test, cleaned_column, coerced. simpl.
    destruct (Text.contains "Codigo" (Text.strip (label c)) && dtype_eqb (col_dtype c) object);
      reflexivity.
  - rewrite map_map. apply map_ext. intros r.
    rewrite map_cells_compose. unfold cs. rewrite map_cells_map.
    apply map_cells_ext. intros c x. reflexivity.
Qed.

Lemma distinct_NoDup (ls : list string) : distinct ls = true -> NoDup ls.
Proof.
  induction ls as [|l ls IH]; simpl; intros H; constructor.
  - apply andb_true_iff in H as [H _]. intros Hin.
    apply negb_true_iff in H.
    assert (existsb (String.eqb l) ls = true) as E; [|congruence].
    apply existsb_exists. exists l. split; [exact Hin | apply String.eqb_refl].
  - apply IH. apply andb_true_iff in H as [_ H]. exact H.
Qed.

End CleaningFacts.






(** ** The KPI record *)

Section RoundingFacts.

Local Open Scope Q_scope.








End RoundingFacts.

Section KpiFacts.

Import Processing.



Lemma getitem_some (df : DataFrame) (col : string) (dt : dtype) (vs : list cell) :
  getitem df col = Some (dt, vs) ->
  has_column df col = true /\ values df col = vs /\ length vs = len df.
Proof.
  intros H. unfold values. rewrite H.
  unfold getitem in H. unfold has_column, len.
  destruct (index_of col (labels df)) as [i|] eqn:E; [|discriminate].
  injection H as _ <-. rewrite length_map. repeat split.
  destruct (existsb (String.eqb col) (labels df)) eqn:Ex; [reflexivity|].
  exfalso. revert i E Ex. generalize (labels df).
  induction l as [|x l IH]; simpl; intros i E Ex; [discriminate|].
  destruct (String.eqb col x); simpl in *; [discriminate|].
  destruct (index_of col l); [|discriminate]. eapply IH; eauto.
Qed.



Lemma publicos_numeric (vs : list cell) :
  publicos (numeric, vs)
  = Raise (AttributeError "Can only use .str accessor with string values!").
Proof. reflexivity. Qed.

Lemma filter_length_le {A : Type} (p : A -> bool) (l : list A) :
  length (filter p l) <= length l.
Proof.
  induction l as [|x l IH]; simpl; [lia|].
  destruct (p x); simpl; lia.
Qed.


End KpiFacts.






(** ** The retrieval client *)

Section ClientFacts.

Import ApiClient.

Variable net : Network.

(** One attempt of [_make_request]: GET, then [raise_for_status]. *)
Lemma attempt_fails (req : Request) (s : Session) (why : string) :
  outcome net (calls s) req = Raise (RequestException why) ->
  (response <- requests_get net req ;;
   _ <- raise_for_status response ;;
   ret response) s
  = (Raise (RequestException why), mkSession (S (calls s)) (slept s)).
Proof.
  unfold outcome, bind, requests_get, raise_for_status.
  destruct (net (calls s) req) as [r|e]; [|intros [= ->]; reflexivity].
  destruct ((400 <=? status_code r)%Z && (status_code r <? 600)%Z).
  - intros [= <-]. reflexivity.
  - discriminate.
Qed.

Lemma attempt_succeeds (req : Request) (s : Session) (r : Response) :
  outcome net (calls s) req = Ok r ->
  (response <- requests_get net req ;;
   _ <- raise_for_status response ;;
   ret response) s
  = (Ok r, mkSession (S (calls s)) (slept s)).
Proof.
  unfold outcome, bind, requests_get, raise_for_status.
  destruct (net (calls s) req) as [r'|e]; [|discriminate].
  destruct ((400 <=? status_code r')%Z && (status_code r' <? 600)%Z).
  - discriminate.
  - intros [= ->]. reflexivity.
Qed.

(** When every attempt left fails, the loop ends and the last failure is
    raised; the client sleeps after each failure but the last. *)
Lemma attempts_all_fail (req : Request) (retries : Z) (todo : nat) :
  forall (attempt : Z) (last : option exn) (s : Session),
    (attempt + Z.of_nat todo = retries)%Z ->
    (forall k, k < todo -> exists why,
        outcome net (calls s + k) req = Raise (RequestException why)) ->
    todo <> 0 ->
    exists why,
      outcome net (calls s + (todo - 1)) req = Raise (RequestException why) /\
      attempts net req retries todo attempt last s
      = (Raise (RequestException why),
         mkSession (calls s + todo) (slept s + RETRY_DELAY * Z.of_nat (todo - 1))).
Proof.
  induction todo as [|todo IH]; intros attempt last s Hsum Hfail Hne; [congruence|].
  destruct (Hfail 0 ltac:(lia)) as [why Hwhy]. rewrite Nat.add_0_r in Hwhy.
  cbn [attempts]. unfold try_except.
  rewrite (attempt_fails _ _ _ Hwhy).
  destruct todo as [|todo'].
  - exists why. simpl. rewrite Nat.add_0_r. split; [exact Hwhy|].
    assert (E : (attempt <? retries - 1)%Z = false) by (apply Z.ltb_ge; lia).
    unfold bind. rewrite E. simpl. unfold raise.
    f_equal. f_equal; [lia|]. unfold RETRY_DELAY. lia.
  - assert (E : (attempt <? retries - 1)%Z = true) by (apply Z.ltb_lt; lia).
    unfold bind at 1. rewrite E. unfold sleep. cbn [calls slept].
    destruct (IH (attempt + 1)%Z (Some (RequestException why))
                (mkSession (S (calls s)) (slept s + RETRY_DELAY)))
      as [why' [Hlast Hrun]].
    + lia.
    + intros k Hk. cbn [calls].
      destruct (Hfail (S k) ltac:(lia)) as [w Hw].
      exists w. rewrite <- Hw. f_equal. lia.
    + discriminate.
    + exists why'. split.
      * rewrite <- Hlast. cbn [calls]. f_equal. lia.
      * rewrite Hrun. cbn [calls slept]. f_equal. f_equal; [lia|].
        unfold RETRY_DELAY. lia.
Qed.

(** When the first [j] attempts fail and the next one is answered, the
    loop returns that answer, having slept after each failure. *)
Lemma attempts_then_answer (req : Request) (retries : Z) (r : Response) (j : nat) :
  forall (todo : nat) (attempt : Z) (last : option exn) (s : Session),
    (attempt + Z.of_nat todo = retries)%Z ->
    j < todo ->
    (forall k, k < j -> exists why,
        outcome net (calls s + k) req = Raise (RequestException why)) ->
    outcome net (calls s + j) req = Ok r ->
    attempts net req retries todo attempt last s
    = (Ok r, mkSession (calls s + j + 1) (slept s + RETRY_DELAY * Z.of_nat j)).
Proof.
  induction j as [|j IH]; intros todo attempt last s Hsum Hj Hfail Hok;
    (destruct todo as [|todo]; [lia|]); cbn [attempts]; unfold try_except.
  - rewrite Nat.add_0_r in Hok. rewrite (attempt_succeeds _ _ _ Hok).
    f_equal. f_equal; [lia|]. unfold RETRY_DELAY. lia.
  - destruct (Hfail 0 ltac:(lia)) as [why Hwhy]. rewrite Nat.add_0_r in Hwhy.
    rewrite (attempt_fails _ _ _ Hwhy).
    assert (E : (attempt <? retries - 1)%Z = true) by (apply Z.ltb_lt; lia).
    unfold bind at 1. rewrite E. unfold sleep. cbn [calls slept].
    rewrite (IH todo (attempt + 1)%Z (Some (RequestException why))
               (mkSession (S (calls s)) (slept s + RETRY_DELAY))).
    + cbn [calls slept]. f_equal. f_equal; [lia|]. unfold RETRY_DELAY. lia.
    + lia.
    + lia.
    + intros k Hk. cbn [calls].
      destruct (Hfail (S k) ltac:(lia)) as [w Hw].
      exists w. rewrite <- Hw. f_equal. lia.
    + cbn [calls]. rewrite <- Hok. f_equal. lia.
Qed.

End ClientFacts.

(** C5, as amended.  [search_packages] returns the empty list when the
    portal answers one of the three attempts with a JSON object whose
    success flag is false or missing; a failure of the network that lasts
    through the three attempts is not turned into an empty list: the last
    failure reaches the caller, after three requests and two pauses. *)
Theorem search_packages_failures (net : ApiClient.Network) (query : string)
    (rows : Z) (base_url : string) (s : ApiClient.Session) :
  (forall j r entries,
     j < 3 ->
     (forall k, k < j -> exists why,
         outcome net (ApiClient.calls s + k) (search_request query rows base_url)
         = Raise (RequestException why)) ->
     outcome net (ApiClient.calls s + j) (search_request query rows base_url) = Ok r ->
     ApiClient.body_json r = Some (ApiClient.JDict entries) ->
     reports_success entries = false ->
     fst (ApiClient.search_packages net query rows base_url s)
     = Ok (ApiClient.JList [])) /\
  ((forall k, k < 3 -> exists why,
       outcome net (ApiClient.calls s + k) (search_request query rows base_url)
       = Raise (RequestException why)) ->
   exists why,
     ApiClient.search_packages net query rows base_url s
     = (Raise (RequestException why),
        ApiClient.mkSession (ApiClient.calls s + 3) (ApiClient.slept s + 4))).
Proof.
  unfold ApiClient.search_packages, ApiClient._make_request. split.
  - intros j r entries Hj Hfail Hok Hbody Hflag.
    unfold ApiClient.bind at 1.
    rewrite (attempts_then_answer net _ _ r j 3 0%Z None s) by (assumption || reflexivity).
    unfold ApiClient.bind at 1, ApiClient.response_json. rewrite Hbody.
    unfold ApiClient.ret at 1.
    unfold ApiClient.bind at 1, ApiClient.dict_get.
    unfold reports_success in Hflag.
    destruct (ApiClient.lookup "success" entries) as [v|];
      unfold ApiClient.ret at 1; [rewrite Hflag|]; reflexivity.
  - intros Hfail.
    destruct (attempts_all_fail net (search_request query rows base_url)
                ApiClient.MAX_RETRIES 3 0%Z None s eq_refl Hfail ltac:(discriminate))
      as [why [_ Hrun]].
    exists why. unfold ApiClient.bind at 1.
    change (Z.to_nat ApiClient.MAX_RETRIES) with 3.
    unfold search_request in Hrun. rewrite Hrun. reflexivity.
Qed.

Lemma search_packages_failures_witness :
  (forall k, k < 3 -> exists why,
      outcome unreachable (ApiClient.calls ApiClient.fresh + k)
        (search_request "salud" 10 ApiClient.BASE_URL)
      = Raise (RequestException why)) /\
  exists why,
    fst (ApiClient.search_packages unreachable "salud" 10 ApiClient.BASE_URL ApiClient.fresh)
    = Raise (RequestException why).
Proof.
  assert (H : forall k, k < 3 -> exists why,
             outcome unreachable (ApiClient.calls ApiClient.fresh + k)
               (search_request "salud" 10 ApiClient.BASE_URL)
             = Raise (RequestException why))
    by (intros k _; exists "ConnectionError"; reflexivity).
  split; [exact H|].
  destruct (proj2 (search_packages_failures unreachable "salud" 10 ApiClient.BASE_URL
                     ApiClient.fresh) H) as [why Hrun].
  exists why. rewrite Hrun. reflexivity.
Defined.

(** C5 as stated fails: with the portal out of reach at each of the three
    attempts, [search_packages] does not return the empty list; the
    connection error reaches its caller. *)
Lemma search_packages_counterexample :
  ApiClient.search_packages unreachable "salud" 10 ApiClient.BASE_URL ApiClient.fresh
  = (Raise (RequestException "ConnectionError"), ApiClient.mkSession 3 4) /\
  fst (ApiClient.search_packages unreachable "salud" 10 ApiClient.BASE_URL
         ApiClient.fresh)
  <> Ok (ApiClient.JList []).
Proof. split; [reflexivity | discriminate]. Qed.

(** ** Filters and the frames they are given *)

Section HeapFacts.

Lemma deref_alloc_old (h : Heap.store) (d x : DataFrame) (q : Heap.ref) :
  Heap.deref h q = Some x -> Heap.deref (fst (Heap.alloc h d)) q = Some x.
Proof.
  unfold Heap.deref, Heap.alloc. simpl. intros H.
  rewrite nth_error_app1; [exact H|].
  apply nth_error_Some. congruence.
Qed.

Lemma deref_alloc_new (h : Heap.store) (d : DataFrame) :
  Heap.deref (fst (Heap.alloc h d)) (snd (Heap.alloc h d)) = Some d.
Proof.
  unfold Heap.deref, Heap.alloc. simpl.
  rewrite nth_error_app2, Nat.sub_diag by lia. reflexivity.
Qed.

Lemma deref_alloc_fresh (h : Heap.store) (d : DataFrame) :
  Heap.deref h (snd (Heap.alloc h d)) = None.
Proof.
  unfold Heap.deref, Heap.alloc. simpl. apply nth_error_None. lia.
Qed.

(** A filter that applies builds the selection, then its copy; the frames
    already in the store stay as they are and the copy is returned. *)
Lemma select_then_copy (h : Heap.store) (df : Heap.ref) (d : DataFrame)
    (mask : DataFrame -> list bool) :
  Heap.deref h df = Some d ->
  exists h' out,
    match Heap.getitem_mask h df mask with
    | Some (h1, selected) => Heap.copy h1 selected
    | None => None
    end = Some (h', out) /\
    (forall q x, Heap.deref h q = Some x -> Heap.deref h' q = Some x) /\
    Heap.deref h' out = Some (getitem_mask d (mask d)) /\
    Heap.deref h out = None.
Proof.
  intros Hd. unfold Heap.getitem_mask, Heap.copy. rewrite Hd.
  set (sel := getitem_mask d (mask d)).
  destruct (Heap.alloc h sel) as [h1 r1] eqn:E1.
  assert (Hr1 : Heap.deref h1 r1 = Some sel).
  { pose proof (deref_alloc_new h sel) as H. rewrite E1 in H. exact H. }
  rewrite Hr1.
  destruct (Heap.alloc h1 sel) as [h2 r2] eqn:E2.
  exists h2, r2. split; [reflexivity|]. split; [|split].
  - intros q x Hq.
    pose proof (deref_alloc_old h sel x q Hq) as H1. rewrite E1 in H1.
    pose proof (deref_alloc_old h1 sel x q H1) as H2. rewrite E2 in H2. exact H2.
  - pose proof (deref_alloc_new h1 sel) as H. rewrite E2 in H. exact H.
  - unfold Heap.alloc in E1, E2. injection E1 as <- <-. injection E2 as _ <-.
    unfold Heap.deref. apply nth_error_None. rewrite length_app. simpl. lia.
Qed.

End HeapFacts.

(** C9, as amended.  A filter changes no frame: every frame of the store,
    the one passed in among them, is after the call what it was before,
    header, rows and row count.  The frame returned holds the filtered
    rows.  It is a new frame when the filter applies; with the word that
    stands for "all", or with a column the frame lacks, it is the very
    frame that was passed in. *)
Theorem filter_keeps_input (h : Heap.store) (df : Heap.ref) (d : DataFrame)
    (v col : string) :
  Heap.deref h df = Some d ->
  (exists h' out,
     Heap.filter_by_region h df v col = Some (h', out) /\
     (forall q x, Heap.deref h q = Some x -> Heap.deref h' q = Some x) /\
     Heap.deref h' out = Some (Processing.filter_by_region d v col) /\
     (if String.eqb v "Todas" || negb (has_column d col)
      then out = df /\ h' = h
      else Heap.deref h out = None)) /\
  (exists h' out,
     Heap.filter_by_tipo h df v col = Some (h', out) /\
     (forall q x, Heap.deref h q = Some x -> Heap.deref h' q = Some x) /\
     Heap.deref h' out = Some (Processing.filter_by_tipo d v col) /\
     (if String.eqb v "Todos" || negb (has_column d col)
      then out = df /\ h' = h
      else Heap.deref h out = None)).
Proof.
  intros Hd.
  unfold Heap.filter_by_region, Heap.filter_by_tipo,
    Processing.filter_by_region, Processing.filter_by_tipo.
  rewrite Hd. split.
  - destruct (String.eqb v "Todas" || negb (has_column d col)).
    + exists h, df. auto.
    + destruct (select_then_copy h df d
                  (fun d => map (eq_scalar v) (values d col)) Hd)
        as [h' [out [Hrun [Hold [Hnew Hfresh]]]]].
      exists h', out. auto.
  - destruct (String.eqb v "Todos" || negb (has_column d col)).
    + exists h, df. auto.
    + destruct (select_then_copy h df d
                  (fun d => map (eq_scalar v) (values d col)) Hd)
        as [h' [out [Hrun [Hold [Hnew Hfresh]]]]].
      exists h', out. auto.
Qed.

Lemma filter_keeps_input_witness :
  Heap.deref [sample] 0 = Some sample /\
  exists h' out,
    Heap.filter_by_region [sample] 0 "Metropolitana" "RegionGlosa" = Some (h', out) /\
    Heap.deref h' 0 = Some sample /\
    Heap.deref h' out
    = Some (mkFrame (columns sample) [[Str "Metropolitana"; Str "Santiago"; Str "Municipal"]]).
Proof.
  split; [reflexivity|].
  destruct (filter_keeps_input [sample] 0 sample "Metropolitana" "RegionGlosa" eq_refl)
    as [[h' [out [Hrun [Hold [Hnew _]]]]] _].
  exists h', out. split; [exact Hrun|]. split; [apply Hold; reflexivity|].
  rewrite Hnew. reflexivity.
Defined.

(** C9 as stated fails in its last clause: filtering by "Todas" builds no
    frame; the store is as before and the frame returned is the frame
    passed in. *)
Lemma filter_keeps_input_counterexample :
  Heap.deref [sample] 0 = Some sample /\
  Heap.filter_by_region [sample] 0 "Todas" "RegionGlosa" = Some ([sample], 0) /\
  Heap.filter_by_tipo [sample] 0 "Todos" "TipoEstablecimientoGlosa" = Some ([sample], 0).
Proof. split; [|split]; reflexivity. Qed.

(** * Further properties of the code *)

(** ** The order on values *)

Section CellOrder.

Lemma ascii_compare_refl (a : ascii) : Ascii.compare a a = Eq.
Proof. unfold Ascii.compare. apply N.compare_refl. Qed.

Lemma ascii_compare_lt_trans (a b c : ascii) :
  Ascii.compare a b = Lt -> Ascii.compare b c = Lt -> Ascii.compare a c = Lt.
Proof.
  unfold Ascii.compare. rewrite !N.compare_lt_iff. apply N.lt_trans.
Qed.

Lemma string_compare_refl (s : string) : String.compare s s = Eq.
Proof.
  induction s as [|a s IH]; simpl; [reflexivity|].
  rewrite ascii_compare_refl. exact IH.
Qed.

Lemma string_compare_lt_trans (s t u : string) :
  String.compare s t = Lt -> String.compare t u = Lt -> String.compare s u = Lt.
Proof.
  revert t u. induction s as [|a s IH]; intros [|b t] [|c u]; simpl;
    try discriminate; try reflexivity.
  destruct (Ascii.compare a b) eqn:Eab; try discriminate;
    destruct (Ascii.compare b c) eqn:Ebc; try discriminate; intros Hst Htu.
  - apply Ascii.compare_eq_iff in Eab, Ebc. subst.
    rewrite ascii_compare_refl. eapply IH; eassumption.
  - apply Ascii.compare_eq_iff in Eab. subst. rewrite Ebc. reflexivity.
  - apply Ascii.compare_eq_iff in Ebc. subst. rewrite Eab. reflexivity.
  - rewrite (ascii_compare_lt_trans _ _ _ Eab Ebc). reflexivity.
Qed.

Lemma cell_compare_eq (a b : cell) : cell_compare a b = Eq <-> a = b.
Proof.
  split.
  - destruct a, b; simpl; try discriminate; intros H.
    + reflexivity.
    + apply String.compare_eq_iff in H. congruence.
    + apply Z.compare_eq in H. congruence.
  - intros <-. destruct a; simpl.
    + reflexivity.
    + apply string_compare_refl.
    + apply Z.compare_refl.
Qed.

Lemma cell_compare_antisym (a b : cell) :
  cell_compare b a = CompOpp (cell_compare a b).
Proof.
  destruct a, b; simpl; try reflexivity.
  - apply String.compare_antisym.
  - apply Z.compare_antisym.
Qed.

Lemma cell_compare_lt_trans (a b c : cell) :
  cell_compare a b = Lt -> cell_compare b c = Lt -> cell_compare a c = Lt.
Proof.
  destruct a, b, c; simpl; try discriminate; try reflexivity.
  - apply string_compare_lt_trans.
  - rewrite !Z.compare_lt_iff. apply Z.lt_trans.
Qed.

Lemma cell_compare_gt (a b : cell) :
  cell_compare a b = Gt -> cell_compare b a = Lt.
Proof. intros H. rewrite cell_compare_antisym, H. reflexivity. Qed.

Lemma cell_eqb_eq (a b : cell) : cell_eqb a b = true <-> a = b.
Proof.
  unfold cell_eqb. rewrite <- cell_compare_eq.
  destruct (cell_compare a b); split; congruence.
Qed.

End CellOrder.

(** ** Distinct values, in order *)

Section SortedValues.

Lemma ascending_not_in (x : cell) (l : list cell) :
  Forall (fun y => cell_compare x y = Lt) l -> ~ In x l.
Proof.
  intros H Hin. rewrite Forall_forall in H. specialize (H x Hin).
  rewrite (proj2 (cell_compare_eq x x) eq_refl) in H. discriminate.
Qed.


(** Two strictly ascending lists with the same members are the same list. *)
Lemma ascending_unique (l1 l2 : list cell) :
  ascending l1 -> ascending l2 -> (forall x, In x l1 <-> In x l2) -> l1 = l2.
Proof.
  intros H1. revert l2. induction H1 as [|x l1 Hl1 IH Hx]; intros l2 H2 Hmem.
  - destruct l2 as [|y l2]; [reflexivity|].
    exfalso. apply (proj2 (Hmem y)). left. reflexivity.
  - destruct H2 as [|y l2 Hl2 Hy].
    + exfalso. apply (proj1 (Hmem x)). left. reflexivity.
    + assert (Hxy : x = y).
      { destruct (proj1 (Hmem x) (or_introl eq_refl)) as [E|Hin]; [congruence|].
        destruct (proj2 (Hmem y) (or_introl eq_refl)) as [E|Hin']; [congruence|].
        rewrite Forall_forall in Hx, Hy.
        pose proof (Hx y Hin') as A. pose proof (Hy x Hin) as B.
        pose proof (cell_compare_lt_trans _ _ _ A B) as C.
        rewrite (proj2 (cell_compare_eq x x) eq_refl) in C. discriminate. }
      subst y. f_equal. apply IH; [exact Hl2|].
      intros z. split; intros Hz.
      * destruct (proj1 (Hmem z) (or_intror Hz)) as [E|Hin]; [|exact Hin].
        subst z. exfalso. exact (ascending_not_in _ _ Hx Hz).
      * destruct (proj2 (Hmem z) (or_intror Hz)) as [E|Hin]; [|exact Hin].
        subst z. exfalso. exact (ascending_not_in _ _ Hy Hz).
Qed.

Lemma insert_cell_in (x y : cell) (l : list cell) :
  In y (insert_cell x l) <-> y = x \/ In y l.
Proof.
  induction l as [|z l IH]; simpl; [intuition congruence|].
  destruct (cell_compare x z); simpl; rewrite ?IH; intuition congruence.
Qed.

Lemma insert_cell_ascending (x : cell) (l : list cell) :
  ascending l -> ~ In x l -> ascending (insert_cell x l).
Proof.
  unfold ascending. induction 1 as [|z l Hl IH Hz]; intros Hx; simpl.
  - repeat constructor.
  - destruct (cell_compare x z) eqn:E.
    + exfalso. apply Hx. left. symmetry. apply cell_compare_eq, E.
    + constructor; [constructor; assumption|].
      constructor; [exact E|].
      eapply Forall_impl; [|exact Hz].
      intros w Hw. eapply cell_compare_lt_trans; eassumption.
    + constructor.
      * apply IH. intros Hin. apply Hx. right. exact Hin.
      * apply Forall_forall. intros w Hw.
        apply insert_cell_in in Hw as [->|Hw].
        -- apply cell_compare_gt, E.
        -- rewrite Forall_forall in Hz. apply Hz, Hw.
Qed.

Lemma sort_cells_in (x : cell) (l : list cell) :
  In x (fold_right insert_cell [] l) <-> In x l.
Proof.
  induction l as [|y l IH]; simpl; [reflexivity|].
  rewrite insert_cell_in, IH. intuition congruence.
Qed.

Lemma sort_cells_ascending (l : list cell) :
  NoDup l -> ascending (fold_right insert_cell [] l).
Proof.
  induction 1 as [|x l Hx Hl IH]; simpl; [constructor|].
  apply insert_cell_ascending; [exact IH|].
  rewrite sort_cells_in. exact Hx.
Qed.

Lemma unique_in (x : cell) (vs : list cell) : In x (unique vs) <-> In x vs.
Proof.
  induction vs as [|v vs IH]; simpl; [reflexivity|].
  rewrite filter_In, IH. split.
  - intros [E | [H _]]; auto.
  - intros [E | H]; [auto|].
    destruct (cell_eqb x v) eqn:Ex.
    + left. symmetry. apply cell_eqb_eq, Ex.
    + right. split; [exact H | reflexivity].
Qed.

Lemma unique_NoDup (vs : list cell) : NoDup (unique vs).
Proof.
  induction vs as [|v vs IH]; simpl; constructor.
  - rewrite filter_In. intros [_ H].
    rewrite (proj2 (cell_eqb_eq v v) eq_refl) in H. discriminate.
  - apply NoDup_filter, IH.
Qed.

Lemma dropna_in (x : cell) (vs : list cell) :
  In x (dropna vs) <-> In x vs /\ x <> NaN.
Proof.
  unfold dropna. rewrite filter_In.
  destruct x; simpl; intuition congruence.
Qed.

Lemma dropna_cons (k : cell) (keys : list cell) :
  dropna (k :: keys) = if isna k then dropna keys else k :: dropna keys.
Proof. unfold dropna. simpl. destruct (isna k); reflexivity. Qed.

(** The groups of [groupby] are the distinct values that are not missing,
    in ascending order. *)
Lemma bump_in (k k' : cell) (g : AggRows) :
  In k' (categories (bump k g)) <-> k' = k \/ In k' (categories g).
Proof.
  unfold categories.
  induction g as [|[k0 n] g IH]; simpl; [intuition congruence|].
  destruct (cell_compare k k0) eqn:E; simpl; rewrite ?IH; try (intuition congruence).
  apply cell_compare_eq in E. subst. intuition congruence.
Qed.

Lemma bump_ascending (k : cell) (g : AggRows) :
  ascending (categories g) -> ascending (categories (bump k g)).
Proof.
  unfold ascending, categories.
  induction g as [|[k0 n] g IH]; intros H; simpl.
  - repeat constructor.
  - inversion H as [|? ? Hg Hk0]; subst.
    destruct (cell_compare k k0) eqn:E; simpl.
    + constructor; assumption.
    + constructor; [exact H|].
      constructor; [exact E|].
      eapply Forall_impl; [|exact Hk0].
      intros w Hw. eapply cell_compare_lt_trans; eassumption.
    + constructor; [apply IH, Hg|].
      apply Forall_forall. intros w Hw.
      apply (bump_in k w g) in Hw as [->|Hw].
      * apply cell_compare_gt, E.
      * rewrite Forall_forall in Hk0. apply Hk0, Hw.
Qed.

Lemma groups_fold (keys : list cell) (g : AggRows) :
  ascending (categories g) ->
  ascending (categories (fold_left (fun g k => if isna k then g else bump k g) keys g)) /\
  (forall x,
     In x (categories (fold_left (fun g k => if isna k then g else bump k g) keys g))
     <-> In x (categories g) \/ In x (dropna keys)).
Proof.
  revert g. induction keys as [|k keys IH]; intros g Hg; cbn [fold_left].
  - split; [exact Hg | simpl; intuition].
  - destruct (isna k) eqn:Ek.
    + destruct (IH g Hg) as [Ha Hm]. split; [exact Ha|].
      intros x. rewrite Hm, dropna_cons, Ek. reflexivity.
    + destruct (IH (bump k g) (bump_ascending k g Hg)) as [Ha Hm].
      split; [exact Ha|].
      intros x. rewrite Hm, bump_in, dropna_cons, Ek. simpl.
      intuition congruence.
Qed.

Lemma groupby_size_categories (keys : list cell) :
  categories (groupby_size keys) = fold_right insert_cell [] (unique (dropna keys)).
Proof.
  destruct (groups_fold keys [] ltac:(constructor)) as [Ha Hm].
  apply ascending_unique.
  - exact Ha.
  - apply sort_cells_ascending, unique_NoDup.
  - intros x. unfold groupby_size. rewrite Hm, sort_cells_in, unique_in.
    simpl. intuition.
Qed.

End SortedValues.

(** ** Unique values, aggregates and KPIs *)

Lemma mixed_subset (l vs : list cell) :
  (forall x, In x l -> In x vs) -> mixed l = true -> mixed vs = true.
Proof.
  unfold mixed. intros Hsub H. apply andb_true_iff in H as [Ht Hn].
  apply existsb_exists in Ht as [a [Ha Hta]].
  apply existsb_exists in Hn as [b [Hb Hnb]].
  apply andb_true_iff. split; apply existsb_exists; eauto.
Qed.

Lemma get_unique_values_cases (df : DataFrame) (column : string) :
  match ProcessingRest.get_unique_values df column with
  | Ok l =>
      ascending l /\
      (forall x, In x l <-> In x (values df column) /\ x <> NaN)
  | Raise _ => mixed (values df column) = true
  end.
Proof.
  unfold ProcessingRest.get_unique_values.
  destruct (has_column df column) eqn:Hcol; simpl.
  - unfold sorted.
    destruct (mixed (unique (dropna (values df column)))) eqn:Hmix.
    + apply (mixed_subset _ _ (fun x H => proj1 (proj1 (dropna_in _ _)
                                 (proj1 (unique_in _ _) H))) Hmix).
    + split.
      * apply sort_cells_ascending, unique_NoDup.
      * intros x. rewrite sort_cells_in, unique_in. apply dropna_in.
  - split; [constructor|].
    intros x. simpl. unfold values, getitem.
    unfold has_column in Hcol.
    destruct (index_of column (labels df)) eqn:E; [|simpl; intuition].
    exfalso. revert n E Hcol. generalize (labels df).
    induction l as [|y l IH]; simpl; intros n E H; [discriminate|].
    destruct (String.eqb column y); simpl in *; [discriminate|].
    destruct (index_of column l); [|discriminate]. eapply IH; eauto.
Qed.

(** X1.  [get_unique_values] either returns the values of the column
    that are not missing, each once and in strictly ascending order
    (nothing when the frame lacks the column), or raises because the
    column mixes texts and numbers. *)
Theorem get_unique_values_sorted (df : DataFrame) (column : string) :
  match ProcessingRest.get_unique_values df column with
  | Ok l =>
      ascending l /\
      (forall x, In x l <-> In x (values df column) /\ x <> NaN)
  | Raise _ => mixed (values df column) = true
  end.
Proof. apply get_unique_values_cases. Qed.

Lemma sort_values_categories (asc : bool) (g : AggRows) :
  Permutation (categories (sort_values asc g)) (categories g).
Proof.
  unfold categories. apply Permutation_map. symmetry. apply sort_values_permutation.
Qed.

(** X2.  The values [get_unique_values] returns for a column of the frame
    are the categories of its aggregate: each category of [agg_by_region],
    [agg_by_tipo_establecimiento] and [agg_by_dependencia] is one of the
    values, and each value is one category. *)
Theorem unique_values_are_categories (df : DataFrame) (col : string) (l : list cell) :
  has_column df col = true ->
  ProcessingRest.get_unique_values df col = Ok l ->
  Permutation (categories (Processing.agg_rows (Processing.agg_by_region df col))) l /\
  Permutation
    (categories (Processing.agg_rows (Processing.agg_by_tipo_establecimiento df col))) l /\
  Permutation (categories (Processing.agg_rows (Processing.agg_by_dependencia df col))) l.
Proof.
  intros Hcol Hl.
  unfold ProcessingRest.get_unique_values in Hl. rewrite Hcol in Hl. simpl in Hl.
  unfold sorted in Hl.
  destruct (mixed (unique (dropna (values df col)))); [discriminate|].
  injection Hl as <-.
  assert (H : forall name,
             Permutation (categories (Processing.agg_rows (Processing.agg_counts df col name)))
               (fold_right insert_cell [] (unique (dropna (values df col))))).
  { intros name. unfold Processing.agg_counts. rewrite Hcol. simpl.
    rewrite sort_values_categories, groupby_size_categories. reflexivity. }
  split; [apply H|]. split; apply H.
Qed.

Lemma unique_values_are_categories_witness :
  has_column sample "RegionGlosa" = true /\
  ProcessingRest.get_unique_values sample "RegionGlosa"
    = Ok [Str "Metropolitana"; Str "Valparaíso"] /\
  Permutation
    (categories (Processing.agg_rows (Processing.agg_by_region sample "RegionGlosa")))
    [Str "Metropolitana"; Str "Valparaíso"].
Proof.
  split; [reflexivity|]. split; [reflexivity|].
  exact (proj1 (unique_values_are_categories sample "RegionGlosa"
                  [Str "Metropolitana"; Str "Valparaíso"] eq_refl eq_refl)).
Defined.


Lemma values_absent (df : DataFrame) (col : string) :
  has_column df col = false -> values df col = [].
Proof.
  unfold has_column, values, getitem. intros H.
  destruct (index_of col (labels df)) eqn:E; [|reflexivity].
  exfalso. revert n E H. generalize (labels df).
  induction l as [|y l IH]; simpl; intros n E H; [discriminate|].
  destruct (String.eqb col y); simpl in *; [discriminate|].
  destruct (index_of col l); [|discriminate]. eapply IH; eauto.
Qed.

Lemma kpis_fields (df : DataFrame) (k : Processing.KPIs) :
  Processing.calculate_kpis df = Ok k ->
  Processing.total_establecimientos k = len df /\
  Processing.regiones k = nunique (values df "RegionGlosa") /\
  Processing.comunas k = nunique (values df "ComunaGlosa") /\
  Processing.con_urgencia k
  = count_true (map (eq_scalar "Sí") (values df "TieneServicioUrgencia")).
Proof.
  unfold Processing.calculate_kpis.
  destruct (getitem df "DependenciaAdministrativa") as [s|];
    [destruct (Processing.publicos s); [|discriminate]|];
    intros [= <-]; cbn [Processing.total_establecimientos Processing.regiones
                        Processing.comunas Processing.con_urgencia];
    (split; [reflexivity|]);
    (split; [destruct (has_column df "RegionGlosa") eqn:E;
             [reflexivity | rewrite (values_absent _ _ E); reflexivity]|]);
    (split; [destruct (has_column df "ComunaGlosa") eqn:E;
             [reflexivity | rewrite (values_absent _ _ E); reflexivity]|]);
    (destruct (has_column df "TieneServicioUrgencia") eqn:E;
     [reflexivity | rewrite (values_absent _ _ E); reflexivity]).
Qed.



Lemma unique_length_le (vs : list cell) : length (unique vs) <= length vs.
Proof.
  induction vs as [|v vs IH]; simpl; [lia|].
  pose proof (filter_length_le (fun x => negb (cell_eqb x v)) (unique vs)). lia.
Qed.

(** X4.  In the record [calculate_kpis] returns, the total is the row
    count and none of the three counts (regions, communes, facilities with
    an emergency service) exceeds it. *)
Theorem kpis_bounded_by_total (df : DataFrame) (k : Processing.KPIs) :
  Processing.calculate_kpis df = Ok k ->
  Processing.total_establecimientos k = len df /\
  Processing.regiones k <= len df /\
  Processing.comunas k <= len df /\
  Processing.con_urgencia k <= len df.
Proof.
  intros Hk. destruct (kpis_fields df k Hk) as [Ht [Hr [Hc Hu]]].
  assert (Hn : forall col, nunique (values df col) <= len df).
  { intros col. unfold nunique.
    pose proof (unique_length_le (dropna (values df col))).
    pose proof (filter_length_le (fun v => negb (isna v)) (values df col)).
    fold (dropna (values df col)) in H0.
    destruct (has_column df col) eqn:E.
    - rewrite <- (values_length df col E). lia.
    - rewrite (values_absent _ _ E) in *. simpl in *. lia. }
  split; [exact Ht|]. rewrite Hr, Hc, Hu.
  split; [apply Hn|]. split; [apply Hn|].
  rewrite count_true_filter.
  pose proof (filter_length_le (eq_scalar "Sí") (values df "TieneServicioUrgencia")).
  destruct (has_column df "TieneServicioUrgencia") eqn:E.
  - rewrite <- (values_length df _ E). lia.
  - rewrite (values_absent _ _ E) in *. simpl in *. lia.
Qed.

Lemma kpis_bounded_by_total_witness :
  Processing.calculate_kpis sample = Ok (Processing.mkKPIs 2 2 2 (500 # 10) 0) /\
  Processing.regiones (Processing.mkKPIs 2 2 2 (500 # 10) 0) <= len sample.
Proof.
  split; [reflexivity|].
  exact (proj1 (proj2 (kpis_bounded_by_total sample _ eq_refl))).
Defined.

(** ** What the filters keep *)

Section FilterFacts.

Lemma filter_true {A : Type} (l : list A) : filter (fun _ => true) l = l.
Proof. induction l as [|x l IH]; simpl; [|rewrite IH]; reflexivity. Qed.

Lemma filter_filter {A : Type} (p q : A -> bool) (l : list A) :
  filter p (filter q l) = filter (fun x => q x && p x) l.
Proof.
  induction l as [|x l IH]; simpl; [reflexivity|].
  destruct (q x); simpl; [destruct (p x)|]; rewrite IH; reflexivity.
Qed.

(** A filter keeps the header and, in their order, the rows that pass. *)
Lemma filter_by_passes (df : DataFrame) (v col all : string) :
  (if String.eqb v all || negb (has_column df col) then df
   else getitem_mask df (map (eq_scalar v) (values df col)))
  = mkFrame (columns df) (filter (passes df v all col) (rows df)).
Proof.
  rewrite filter_by_cases. unfold passes, keep_rows.
  destruct (String.eqb v all); simpl.
  - rewrite filter_true. destruct df; reflexivity.
  - destruct (index_of col (labels df)); [reflexivity|].
    rewrite filter_true. destruct df; reflexivity.
Qed.

Lemma passes_same_header (df : DataFrame) (rs : list (list cell))
    (v all col : string) (row : list cell) :
  passes (mkFrame (columns df) rs) v all col row = passes df v all col row.
Proof. reflexivity. Qed.

Lemma holds_value (v : string) (i : nat) (row : list cell) :
  holds v i row = true -> cell_at i row = Str v.
Proof.
  unfold holds, eq_scalar. destruct (cell_at i row); try discriminate.
  intros H. apply String.eqb_eq in H. congruence.
Qed.

End FilterFacts.

(** X5.  [filter_by_region] and [filter_by_tipo] keep the header and, in
    their order, exactly the rows that pass: all of them when the value
    is the word for "all" or the frame lacks the column, else those that
    hold the value under the column.  The result never has more rows than
    the frame. *)
Theorem filters_keep_matching_rows (df : DataFrame) (v col : string) :
  Processing.filter_by_region df v col
    = mkFrame (columns df) (filter (passes df v "Todas" col) (rows df)) /\
  Processing.filter_by_tipo df v col
    = mkFrame (columns df) (filter (passes df v "Todos" col) (rows df)) /\
  len (Processing.filter_by_region df v col) <= len df /\
  len (Processing.filter_by_tipo df v col) <= len df.
Proof.
  unfold Processing.filter_by_region, Processing.filter_by_tipo.
  rewrite !filter_by_passes. unfold len. cbn [rows].
  split; [reflexivity|]. split; [reflexivity|].
  split; apply filter_length_le.
Qed.

(** X6.  Filtering a second time by the same value and column changes
    nothing. *)
Theorem filters_idempotent (df : DataFrame) (v col : string) :
  Processing.filter_by_region (Processing.filter_by_region df v col) v col
    = Processing.filter_by_region df v col /\
  Processing.filter_by_tipo (Processing.filter_by_tipo df v col) v col
    = Processing.filter_by_tipo df v col.
Proof.
  unfold Processing.filter_by_region, Processing.filter_by_tipo.
  rewrite !filter_by_passes. cbn [columns rows].
  split; f_equal; rewrite filter_filter; apply filter_ext; intros row;
    rewrite passes_same_header; apply andb_diag.
Qed.

Lemma isna_false (k : cell) : k <> NaN -> isna k = false.
Proof. destruct k; [intros H; contradiction H; reflexivity | reflexivity | reflexivity]. Qed.

Lemma groups_of_one (k : cell) (vs : list cell) (n : nat) :
  k <> NaN -> Forall (fun x => x = k) vs ->
  fold_left (fun g x => if isna x then g else bump x g) vs [(k, S n)]
  = [(k, S n + length vs)].
Proof.
  intros Hk H. revert n. induction H as [|x vs -> _ IH]; intros n; simpl.
  - rewrite Nat.add_0_r. reflexivity.
  - rewrite (isna_false k Hk), (proj2 (cell_compare_eq k k) eq_refl), IH.
    do 2 f_equal. lia.
Qed.

Lemma groupby_size_of_one (k : cell) (vs : list cell) :
  k <> NaN -> Forall (fun x => x = k) vs ->
  groupby_size vs = match vs with [] => [] | _ => [(k, length vs)] end.
Proof.
  intros Hk H. unfold groupby_size. destruct H as [|x vs -> H]; [reflexivity|].
  simpl. rewrite (isna_false k Hk). simpl. rewrite (groups_of_one k vs 0 Hk H). reflexivity.
Qed.

Lemma values_of_kept (df : DataFrame) (v col : string) (i : nat) :
  index_of col (labels df) = Some i ->
  values (mkFrame (columns df) (filter (holds v i) (rows df))) col
  = map (cell_at i) (filter (holds v i) (rows df)) /\
  Forall (fun x => x = Str v) (map (cell_at i) (filter (holds v i) (rows df))).
Proof.
  intros Hi. split.
  - unfold values, getitem, labels in *. cbn [columns rows]. rewrite Hi. reflexivity.
  - apply Forall_forall. intros x Hx.
    apply in_map_iff in Hx as [row [<- Hrow]].
    apply filter_In in Hrow as [_ Hrow]. apply holds_value, Hrow.
Qed.

Lemma has_column_index (df : DataFrame) (col : string) :
  has_column df col = true -> exists i, index_of col (labels df) = Some i.
Proof. apply index_of_has. Qed.

(** X7.  The aggregate of a frame filtered by a value of the grouping
    column has one row, the value with the number of rows kept, or no row
    when the filter kept none. *)
Theorem aggregate_of_filtered (df : DataFrame) (v col : string) :
  has_column df col = true ->
  String.eqb v "Todas" = false ->
  Processing.agg_rows
    (Processing.agg_by_region (Processing.filter_by_region df v col) col)
  = match len (Processing.filter_by_region df v col) with
    | 0 => []
    | S n => [(Str v, S n)]
    end.
Proof.
  intros Hcol Hv. destruct (has_column_index df col Hcol) as [i Hi].
  unfold Processing.filter_by_region. rewrite filter_by_passes.
  assert (Hp : filter (passes df v "Todas" col) (rows df) = filter (holds v i) (rows df)).
  { apply filter_ext. intros row. unfold passes. rewrite Hv, Hi. reflexivity. }
  rewrite Hp.
  destruct (values_of_kept df v col i Hi) as [Hvals Hall].
  unfold Processing.agg_by_region, Processing.agg_counts.
  assert (Hc : has_column (mkFrame (columns df) (filter (holds v i) (rows df))) col = true)
    by exact Hcol.
  rewrite Hc. cbn [negb Processing.agg_rows]. rewrite Hvals.
  rewrite (groupby_size_of_one (Str v) _ ltac:(discriminate) Hall).
  unfold len. cbn [rows]. rewrite <- (length_map (cell_at i)).
  destruct (map (cell_at i) (filter (holds v i) (rows df))); reflexivity.
Qed.

Lemma aggregate_of_filtered_witness :
  has_column sample "RegionGlosa" = true /\
  String.eqb "Metropolitana" "Todas" = false /\
  Processing.agg_rows
    (Processing.agg_by_region
       (Processing.filter_by_region sample "Metropolitana" "RegionGlosa") "RegionGlosa")
  = [(Str "Metropolitana", 1)].
Proof.
  split; [reflexivity|]. split; [reflexivity|].
  exact (aggregate_of_filtered sample "Metropolitana" "RegionGlosa" eq_refl eq_refl).
Defined.

(** X8.  A text that [get_unique_values] lists for a column is a value
    some row holds: filtering the frame by it keeps at least one row. *)
Theorem offered_value_keeps_rows (df : DataFrame) (col v : string) (l : list cell) :
  ProcessingRest.get_unique_values df col = Ok l ->
  In (Str v) l ->
  0 < len (Processing.filter_by_region df v col) /\
  0 < len (Processing.filter_by_tipo df v col).
Proof.
  intros Hl Hin.
  pose proof (get_unique_values_cases df col) as H. rewrite Hl in H.
  destruct H as [_ Hmem]. apply Hmem in Hin as [Hin _].
  unfold values, getitem in Hin.
  destruct (index_of col (labels df)) as [i|] eqn:Hi; [|contradiction].
  apply in_map_iff in Hin as [row [Hcell Hrow]].
  assert (Hkeep : forall all, In row (filter (passes df v all col) (rows df))).
  { intros all. apply filter_In. split; [exact Hrow|].
    unfold passes, holds. rewrite Hi, Hcell. simpl.
    rewrite String.eqb_refl. apply orb_true_r. }
  unfold Processing.filter_by_region, Processing.filter_by_tipo.
  rewrite !filter_by_passes. unfold len. cbn [rows].
  split.
  - specialize (Hkeep "Todas").
    destruct (filter (passes df v "Todas" col) (rows df)); [contradiction | simpl; lia].
  - specialize (Hkeep "Todos").
    destruct (filter (passes df v "Todos" col) (rows df)); [contradiction | simpl; lia].
Qed.

Lemma offered_value_keeps_rows_witness :
  ProcessingRest.get_unique_values sample "RegionGlosa"
    = Ok [Str "Metropolitana"; Str "Valparaíso"] /\
  In (Str "Valparaíso") [Str "Metropolitana"; Str "Valparaíso"] /\
  0 < len (Processing.filter_by_region sample "Valparaíso" "RegionGlosa").
Proof.
  split; [reflexivity|]. split; [right; left; reflexivity|].
  exact (proj1 (offered_value_keeps_rows sample "RegionGlosa" "Valparaíso" _
                  eq_refl (or_intror (or_introl eq_refl)))).
Defined.

(** X9.  The three filters of the dashboard act as one conjunction: the
    frame [main] goes on with has the header of the loaded frame and, in
    their order, the rows that pass the region filter, the type filter
    and the dependency filter. *)
Theorem dashboard_filters_conjoin (df : DataFrame) (region tipo dependencia : string) :
  App.df_f df region tipo dependencia
  = mkFrame (columns df)
      (filter (fun row =>
                 passes df region "Todas" "RegionGlosa" row &&
                 passes df tipo "Todos" "TipoEstablecimientoGlosa" row &&
                 passes df dependencia "Todas" "DependenciaAdministrativa" row)
              (rows df)).
Proof.
  unfold App.df_f, Processing.filter_by_region, Processing.filter_by_tipo.
  rewrite (filter_by_passes df region "RegionGlosa" "Todas").
  rewrite (filter_by_passes _ tipo "TipoEstablecimientoGlosa" "Todos").
  cbn [columns rows].
  set (df2 := mkFrame (columns df) _).
  assert (H3 : (if negb (String.eqb dependencia "Todas")
                   && has_column df2 "DependenciaAdministrativa"
                then getitem_mask df2
                       (map (eq_scalar dependencia) (values df2 "DependenciaAdministrativa"))
                else df2)
               = if String.eqb dependencia "Todas"
                    || negb (has_column df2 "DependenciaAdministrativa")
                 then df2
                 else getitem_mask df2
                        (map (eq_scalar dependencia)
                           (values df2 "DependenciaAdministrativa"))).
  { destruct (String.eqb dependencia "Todas"),
      (has_column df2 "DependenciaAdministrativa"); reflexivity. }
  rewrite H3, filter_by_passes. unfold df2. cbn [columns rows].
  f_equal. rewrite !filter_filter. apply filter_ext. intros row.
  rewrite !passes_same_header, ?andb_assoc. reflexivity.
Qed.

(** ** Required columns *)

Section SetFacts.

Lemma set_of_in (x : string) (names : list string) :
  In x (ProcessingRest.set_of names) <-> In x names.
Proof.
  induction names as [|n names IH]; simpl; [reflexivity|].
  rewrite filter_In, IH. split.
  - intros [E | [H _]]; auto.
  - intros [E | H]; [auto|].
    destruct (String.eqb_spec x n) as [->|Hne]; [left; reflexivity|].
    right. split; [exact H | reflexivity].
Qed.

Lemma set_of_NoDup (names : list string) : NoDup (ProcessingRest.set_of names).
Proof.
  induction names as [|n names IH]; simpl; constructor.
  - rewrite filter_In. intros [_ H]. rewrite String.eqb_refl in H. discriminate.
  - apply NoDup_filter, IH.
Qed.

Lemma existsb_eqb_in (x : string) (names : list string) :
  existsb (String.eqb x) names = true <-> In x names.
Proof.
  rewrite existsb_exists. split.
  - intros [y [Hy E]]. apply String.eqb_eq in E. congruence.
  - intros H. exists x. split; [exact H | apply String.eqb_refl].
Qed.

Lemma missing_in (df : DataFrame) (required : list string) (c : string) :
  In c (snd (ProcessingRest.validate_required_columns df required))
  <-> In c required /\ has_column df c = false.
Proof.
  unfold ProcessingRest.validate_required_columns, ProcessingRest.set_minus. simpl.
  rewrite filter_In, set_of_in, negb_true_iff. unfold has_column.
  assert (E : existsb (String.eqb c) (ProcessingRest.set_of (labels df))
              = existsb (String.eqb c) (labels df)).
  { apply eq_true_iff_eq. rewrite !existsb_eqb_in. apply set_of_in. }
  rewrite E. reflexivity.
Qed.

End SetFacts.

(** X10.  [validate_required_columns] reports as missing exactly the
    required labels that are not in the header, each once, and says the
    frame is valid exactly when every required label is in the header,
    which is when the list of missing labels is empty. *)
Theorem required_columns_reported (df : DataFrame) (required : list string) :
  (forall c, In c (snd (ProcessingRest.validate_required_columns df required))
             <-> In c required /\ has_column df c = false) /\
  NoDup (snd (ProcessingRest.validate_required_columns df required)) /\
  (fst (ProcessingRest.validate_required_columns df required) = true
   <-> snd (ProcessingRest.validate_required_columns df required) = []) /\
  (fst (ProcessingRest.validate_required_columns df required) = true
   <-> forall c, In c required -> has_column df c = true).
Proof.
  assert (Hlen : fst (ProcessingRest.validate_required_columns df required) = true
                 <-> snd (ProcessingRest.validate_required_columns df required) = []).
  { unfold ProcessingRest.validate_required_columns. simpl.
    rewrite Nat.eqb_eq. apply length_zero_iff_nil. }
  split; [apply missing_in|].
  split; [apply NoDup_filter, set_of_NoDup|].
  split; [exact Hlen|].
  rewrite Hlen. split.
  - intros Hnil c Hc. destruct (has_column df c) eqn:E; [reflexivity|].
    exfalso. assert (Hin : In c []) by (rewrite <- Hnil; apply missing_in; auto).
    exact Hin.
  - intros Hall.
    destruct (snd (ProcessingRest.validate_required_columns df required)) as [|c l] eqn:E;
      [reflexivity|].
    exfalso. assert (Hin : In c (c :: l)) by (left; reflexivity).
    rewrite <- E in Hin. apply missing_in in Hin as [Hreq Hno].
    rewrite (Hall c Hreq) in Hno. discriminate.
Qed.

Example required_columns_of_sample :
  ProcessingRest.validate_required_columns sample ["RegionGlosa"; "Foo"] = (false, ["Foo"]).
Proof. reflexivity. Qed.

(** ** What cleaning leaves behind *)

Section CleanedFacts.

Variable to_numeric_scalar : string -> option Z.

Lemma map_cells_length (f : column -> cell -> cell) (cs : list column) (row : list cell) :
  length (Processing.map_cells f cs row) = length row.
Proof.
  revert row. induction cs as [|c cs IH]; intros [|x row]; simpl; rewrite ?IH; reflexivity.
Qed.

Lemma map_cells_nth_inv (f : column -> cell -> cell) (cs : list column)
    (row : list cell) (i : nat) (c : column) (y : cell) :
  nth_error cs i = Some c ->
  nth_error (Processing.map_cells f cs row) i = Some y ->
  exists x, nth_error row i = Some x /\ y = f c x.
Proof.
  revert row i. induction cs as [|c0 cs IH]; intros [|x0 row] [|i]; simpl;
    try discriminate.
  - intros [= ->] [= <-]. eauto.
  - apply IH.
Qed.

Lemma cleaned_cell_present (c : column) (x : cell) :
  col_dtype (cleaned_column c) = object ->
  cleaned_cell to_numeric_scalar c x <> NaN.
Proof.
  unfold cleaned_column, cleaned_cell, Processing.fillna_cell. simpl.
  destruct (coerced c) eqn:E; [discriminate|].
  intros ->. destruct x; discriminate.
Qed.

Lemma cleaned_cell_numeric (c : column) (x : cell) :
  col_dtype c = numeric -> cleaned_cell to_numeric_scalar c x = x.
Proof.
  unfold cleaned_cell, coerced, Processing.fillna_cell. intros ->.
  rewrite andb_false_r. reflexivity.
Qed.

End CleanedFacts.

Lemma clean_dataframe_shape (to_numeric_scalar : string -> option Z) (df : DataFrame) :
  distinct (map Text.strip (labels df)) = true ->
  len (Processing.clean_dataframe to_numeric_scalar df) = len df /\
  length (columns (Processing.clean_dataframe to_numeric_scalar df))
    = length (columns df) /\
  (forall i c' row' y,
     nth_error (columns (Processing.clean_dataframe to_numeric_scalar df)) i = Some c' ->
     col_dtype c' = object ->
     In row' (rows (Processing.clean_dataframe to_numeric_scalar df)) ->
     nth_error row' i = Some y ->
     y <> NaN) /\
  (forall i c r row x,
     nth_error (columns df) i = Some c ->
     col_dtype c = numeric ->
     nth_error (rows df) r = Some row ->
     nth_error row i = Some x ->
     exists row',
       nth_error (rows (Processing.clean_dataframe to_numeric_scalar df)) r = Some row' /\
       nth_error row' i = Some x).
Proof.
  intros Hd.
  rewrite (clean_dataframe_closed _ _ (distinct_NoDup _ Hd)).
  unfold len. cbn [columns rows].
  split; [apply length_map|]. split; [apply length_map|]. split.
  - intros i c' row' y Hc' Hobj Hrow' Hy.
    rewrite nth_error_map in Hc'.
    destruct (nth_error (columns df) i) as [c|] eqn:Hc; [|discriminate].
    injection Hc' as <-.
    apply in_map_iff in Hrow' as [row [<- _]].
    destruct (map_cells_nth_inv _ _ _ _ _ _ Hc Hy) as [x [_ ->]].
    apply cleaned_cell_present, Hobj.
  - intros i c r row x Hc Hnum Hrow Hx.
    exists (Processing.map_cells (cleaned_cell to_numeric_scalar) (columns df) row).
    split; [rewrite nth_error_map, Hrow; reflexivity|].
    rewrite (map_cells_nth _ _ _ _ _ _ Hc Hx).
    rewrite cleaned_cell_numeric by exact Hnum. reflexivity.
Qed.

(** X11.  Cleaning keeps the number of rows and of columns; afterwards no
    text column holds a missing value, and the cells of the columns that
    were numeric before are what they were. *)
Theorem cleaned_frame_shape (to_numeric_scalar : string -> option Z) (df : DataFrame) :
  distinct (map Text.strip (labels df)) = true ->
  len (Processing.clean_dataframe to_numeric_scalar df) = len df /\
  length (columns (Processing.clean_dataframe to_numeric_scalar df))
    = length (columns df) /\
  (forall i c' row' y,
     nth_error (columns (Processing.clean_dataframe to_numeric_scalar df)) i = Some c' ->
     col_dtype c' = object ->
     In row' (rows (Processing.clean_dataframe to_numeric_scalar df)) ->
     nth_error row' i = Some y ->
     y <> NaN) /\
  (forall i c r row x,
     nth_error (columns df) i = Some c ->
     col_dtype c = numeric ->
     nth_error (rows df) r = Some row ->
     nth_error row i = Some x ->
     exists row',
       nth_error (rows (Processing.clean_dataframe to_numeric_scalar df)) r = Some row' /\
       nth_error row' i = Some x).
Proof. apply clean_dataframe_shape. Qed.

Lemma cleaned_frame_shape_witness :
  distinct (map Text.strip (labels sample_raw)) = true /\
  len (Processing.clean_dataframe decimal sample_raw) = 3.
Proof.
  split; [reflexivity|].
  rewrite (proj1 (cleaned_frame_shape decimal sample_raw eq_refl)). reflexivity.
Defined.

Lemma index_of_nth (col : string) (cs : list column) (i : nat) :
  index_of col (map label cs) = Some i ->
  exists c, nth_error cs i = Some c /\ nth i (map col_dtype cs) object = col_dtype c.
Proof.
  revert i. induction cs as [|c cs IH]; simpl; intros i H; [discriminate|].
  destruct (String.eqb col (label c)).
  - injection H as <-. exists c. split; reflexivity.
  - destruct (index_of col (map label cs)) as [j|]; [|discriminate].
    injection H as <-. destruct (IH j eq_refl) as [c0 [H1 H2]].
    exists c0. split; assumption.
Qed.

(** X12.  On a cleaned frame the counts of the aggregate of a text column
    add up to the row count: no row is lost to a missing value.  The rows
    of the raw frame are taken to be as long as its header. *)
Theorem aggregate_of_cleaned (to_numeric_scalar : string -> option Z)
    (df : DataFrame) (col : string) (vs : list cell) :
  distinct (map Text.strip (labels df)) = true ->
  Forall (fun row => length row = length (columns df)) (rows df) ->
  getitem (Processing.clean_dataframe to_numeric_scalar df) col = Some (object, vs) ->
  total_count (Processing.agg_rows
                 (Processing.agg_by_region
                    (Processing.clean_dataframe to_numeric_scalar df) col)) = len df /\
  total_count (Processing.agg_rows
                 (Processing.agg_by_tipo_establecimiento
                    (Processing.clean_dataframe to_numeric_scalar df) col)) = len df /\
  total_count (Processing.agg_rows
                 (Processing.agg_by_dependencia
                    (Processing.clean_dataframe to_numeric_scalar df) col)) = len df.
Proof.
  intros Hd Hwf Hget.
  destruct (clean_dataframe_shape to_numeric_scalar df Hd) as [Hlen [Hcols [Hgap _]]].
  set (cdf := Processing.clean_dataframe to_numeric_scalar df) in *.
  destruct (getitem_some _ _ _ _ Hget) as [Hcol [Hvals Hlenvs]].
  assert (Hall : dropna vs = vs).
  { apply dropna_all_present. apply forallb_forall. intros y Hy.
    unfold getitem in Hget.
    destruct (index_of col (labels cdf)) as [i|] eqn:Hi; [|discriminate].
    destruct (index_of_nth _ _ _ Hi) as [c' [Hc' Hdt]].
    injection Hget as Hobj Hmap. rewrite Hdt in Hobj.
    rewrite <- Hmap in Hy. apply in_map_iff in Hy as [row' [<- Hrow']].
    assert (Hi' : i < length row').
    { assert (Hrl : length row' = length (columns df)).
      { unfold cdf in Hrow'.
        rewrite (clean_dataframe_closed _ _ (distinct_NoDup _ Hd)) in Hrow'.
        cbn [rows] in Hrow'. apply in_map_iff in Hrow' as [row [<- Hrow]].
        rewrite map_cells_length. rewrite Forall_forall in Hwf. apply Hwf, Hrow. }
      rewrite Hrl, <- Hcols. apply nth_error_Some. congruence. }
    unfold cell_at.
    destruct (nth_error row' i) as [y|] eqn:Hy;
      [|apply nth_error_None in Hy; lia].
    rewrite (nth_error_nth _ _ _ Hy).
    pose proof (Hgap i c' row' y Hc' Hobj Hrow' Hy) as Hne.
    destruct y; [contradiction Hne; reflexivity | reflexivity | reflexivity]. }
  assert (H : forall name,
             total_count (Processing.agg_rows (Processing.agg_counts cdf col name)) = len df).
  { intros name. rewrite (agg_counts_total _ _ _ Hcol), Hvals, Hall, Hlenvs. exact Hlen. }
  split; [apply H|]. split; apply H.
Qed.

Lemma aggregate_of_cleaned_witness :
  distinct (map Text.strip (labels sample_raw)) = true /\
  Forall (fun row => length row = length (columns sample_raw)) (rows sample_raw) /\
  getitem (Processing.clean_dataframe decimal sample_raw) "RegionGlosa"
    = Some (object, [Str "Metropolitana"; Str "No informado"; Str "Valparaíso"]) /\
  total_count (Processing.agg_rows
                 (Processing.agg_by_region
                    (Processing.clean_dataframe decimal sample_raw) "RegionGlosa")) = 3.
Proof.
  assert (Hwf : Forall (fun row => length row = length (columns sample_raw))
                  (rows sample_raw)) by (repeat constructor).
  split; [reflexivity|]. split; [exact Hwf|]. split; [reflexivity|].
  exact (proj1 (aggregate_of_cleaned decimal sample_raw "RegionGlosa" _
                  eq_refl Hwf eq_refl)).
Defined.

(** ** Numbers with a separator of thousands *)

Section FormatFacts.

Lemma uint_digits (d : Decimal.uint) :
  Forall (fun c => is_digit c = true)
    (list_ascii_of_string (DecimalString.NilEmpty.string_of_uint d)).
Proof.
  induction d; simpl; constructor; try reflexivity; assumption.
Qed.

(** [str(n)] is a sign, empty or "-", and digits; [f"{n:,}"] groups the
    digits and keeps the sign. *)
Lemma format_thousands_cases (n : Z) :
  exists sign digits,
    PyStr.str_int n = (sign ++ digits)%string /\
    PyStr.format_thousands n = (sign ++ PyStr.group digits)%string /\
    (sign = "" \/ sign = "-") /\
    Forall (fun c => is_digit c = true) (list_ascii_of_string digits).
Proof.
  unfold PyStr.format_thousands, PyStr.str_int.
  destruct n as [|p|p]; simpl.
  - exists "", "0". repeat split; auto. repeat constructor.
  - exists "", (DecimalString.NilZero.string_of_uint (Pos.to_uint p)).
    assert (Hd : Forall (fun c => is_digit c = true)
                   (list_ascii_of_string
                      (DecimalString.NilZero.string_of_uint (Pos.to_uint p)))).
    { unfold DecimalString.NilZero.string_of_uint.
      destruct (Pos.to_uint p) eqn:E; try (rewrite <- E; apply uint_digits).
      repeat constructor. }
    split; [reflexivity|]. split; [|split; [auto | exact Hd]].
    destruct (DecimalString.NilZero.string_of_uint (Pos.to_uint p)) as [|c s];
      [reflexivity|].
    inversion Hd as [|? ? Hc _]; subst.
    destruct c as [[] [] [] [] [] [] [] []]; try discriminate; reflexivity.
  - exists "-", (DecimalString.NilZero.string_of_uint (Pos.to_uint p)).
    split; [reflexivity|]. split; [reflexivity|]. split; [auto|].
    unfold DecimalString.NilZero.string_of_uint.
    destruct (Pos.to_uint p) eqn:E; try (rewrite <- E; apply uint_digits).
    repeat constructor.
Qed.

(** Induction for [group_reversed], which reaches three digits back. *)
Lemma group_reversed_ind (P : list ascii -> Prop) :
  (forall l, (forall l', length l' < length l -> P l') -> P l) ->
  forall l, P l.
Proof.
  intros step l.
  assert (H : forall n l, length l < n -> P l).
  { induction n as [|n IH]; intros l0 Hl; [lia|].
    apply step. intros l' Hl'. apply IH. lia. }
  apply (H (S (length l))). lia.
Qed.

Lemma group_reversed_four (a b c d : ascii) (more : list ascii) :
  PyStr.group_reversed (a :: b :: c :: d :: more)
  = [a; b; c] ++ ","%char :: PyStr.group_reversed (d :: more).
Proof. reflexivity. Qed.

Lemma group_reversed_ungroup (ds : list ascii) :
  Forall (fun c => is_digit c = true) ds ->
  filter (fun c => negb (Ascii.eqb c ",")) (PyStr.group_reversed ds) = ds /\
  Forall (fun c => is_digit c = true \/ c = ","%char) (PyStr.group_reversed ds).
Proof.
  induction ds as [ds IH] using group_reversed_ind. intros Hd.
  assert (Hkeep : forall l, Forall (fun c => is_digit c = true) l ->
            filter (fun c => negb (Ascii.eqb c ",")) l = l /\
            Forall (fun c => is_digit c = true \/ c = ","%char) l).
  { intros l Hl. split.
    - induction Hl as [|c l Hc _ IHl]; simpl; [reflexivity|].
      rewrite IHl.
      destruct (Ascii.eqb_spec c ","); [subst; discriminate | reflexivity].
    - eapply Forall_impl; [|exact Hl]. auto. }
  destruct ds as [|a [|b [|c [|d more]]]]; try (apply Hkeep; exact Hd).
  rewrite group_reversed_four.
  inversion Hd as [|? ? Ha Hd1]; subst.
  inversion Hd1 as [|? ? Hb Hd2]; subst.
  inversion Hd2 as [|? ? Hc Hd3]; subst.
  destruct (IH (d :: more) ltac:(simpl; lia) Hd3) as [IH1 IH2].
  destruct (Hkeep [a; b; c] ltac:(repeat constructor; assumption)) as [K1 _].
  split.
  - rewrite (filter_app _ [a; b; c] (","%char :: PyStr.group_reversed (d :: more))), K1.
    cbn [filter]. rewrite Ascii.eqb_refl. cbn [negb].
    rewrite IH1. reflexivity.
  - repeat (constructor; [auto|]). exact IH2.
Qed.

Lemma list_of_replace (old new : ascii) (s : string) :
  list_ascii_of_string (PyStr.replace old new s)
  = map (fun c => if Ascii.eqb c old then new else c) (list_ascii_of_string s).
Proof. induction s as [|c s IH]; simpl; [|rewrite IH]; reflexivity. Qed.

Lemma list_of_without (c : ascii) (s : string) :
  list_ascii_of_string (without c s)
  = filter (fun a => negb (Ascii.eqb a c)) (list_ascii_of_string s).
Proof.
  induction s as [|a s IH]; simpl; [reflexivity|].
  destruct (Ascii.eqb a c); simpl; rewrite IH; reflexivity.
Qed.

Lemma list_of_append (s t : string) :
  list_ascii_of_string (s ++ t) = list_ascii_of_string s ++ list_ascii_of_string t.
Proof. induction s as [|c s IH]; simpl; [|rewrite IH]; reflexivity. Qed.

Lemma string_of_list_inj (s t : string) :
  list_ascii_of_string s = list_ascii_of_string t -> s = t.
Proof.
  intros H. rewrite <- (string_of_list_ascii_of_string s),
    <- (string_of_list_ascii_of_string t), H. reflexivity.
Qed.

(** The characters of [f"{n:,}"]: a sign, digits and commas; without the
    commas, [str(n)]. *)
Lemma format_thousands_chars (n : Z) :
  Forall (fun c => is_digit c = true \/ c = ","%char \/ c = "-"%char)
    (list_ascii_of_string (PyStr.format_thousands n)) /\
  filter (fun c => negb (Ascii.eqb c ","))
    (list_ascii_of_string (PyStr.format_thousands n))
  = list_ascii_of_string (PyStr.str_int n).
Proof.
  destruct (format_thousands_cases n) as [sign [digits [Hs [Hf [Hsign Hd]]]]].
  rewrite Hf, Hs, !list_of_append.
  unfold PyStr.group. rewrite list_ascii_of_string_of_list_ascii.
  assert (Hr : Forall (fun c => is_digit c = true) (rev (list_ascii_of_string digits))).
  { apply Forall_forall. intros c Hc. apply in_rev in Hc.
    rewrite Forall_forall in Hd. apply Hd, Hc. }
  destruct (group_reversed_ungroup _ Hr) as [G1 G2].
  split.
  - apply Forall_app. split.
    + destruct Hsign as [-> | ->]; [constructor|].
      constructor; [right; right; reflexivity | constructor].
    + apply Forall_forall. intros c Hc. apply in_rev in Hc.
      rewrite Forall_forall in G2. destruct (G2 c Hc); auto.
  - rewrite filter_app. f_equal.
    + destruct Hsign as [-> | ->]; reflexivity.
    + rewrite <- (rev_involutive (list_ascii_of_string digits)) at 2.
      rewrite <- G1 at 2. rewrite <- filter_rev. reflexivity.
Qed.

Lemma undot (l : list ascii) :
  Forall (fun c => is_digit c = true \/ c = ","%char \/ c = "-"%char) l ->
  filter (fun a => negb (Ascii.eqb a "."))
    (map (fun c => if Ascii.eqb c "," then "."%char else c) l)
  = filter (fun c => negb (Ascii.eqb c ",")) l.
Proof.
  induction 1 as [|c l Hc _ IH]; [reflexivity|].
  cbn [map filter]. rewrite IH.
  destruct Hc as [Hd | [-> | ->]]; try reflexivity.
  destruct c as [[] [] [] [] [] [] [] []]; try discriminate; reflexivity.
Qed.

End FormatFacts.

(** X13.  On integers the two formatters agree: [format_number] of
    utils.py and [_format_number] of viz.py write the same text, the
    decimal numeral with a dot after every third digit from the right;
    taking the dots out gives [str(n)] back. *)
Theorem formatters_agree (n : Z) :
  Utils.format_number n = VizRest._format_number n /\
  without "." (VizRest._format_number n) = PyStr.str_int n.
Proof.
  destruct (format_thousands_chars n) as [Hchars Hun].
  unfold Utils.format_number, VizRest._format_number.
  split; apply string_of_list_inj.
  - rewrite !list_of_replace, !map_map. apply map_ext_in.
    intros c Hc. rewrite Forall_forall in Hchars.
    destruct (Hchars c Hc) as [Hd | [-> | ->]]; try reflexivity.
    destruct c as [[] [] [] [] [] [] [] []]; try discriminate; reflexivity.
  - rewrite list_of_without, list_of_replace, <- Hun. apply undot, Hchars.
Qed.

Example format_number_million :
  Utils.format_number 1234567 = "1.234.567" /\ Utils.format_number (-1000) = "-1.000".
Proof. split; reflexivity. Qed.

(** ** Shortened texts *)

Section TextLengthFacts.

Lemma len_append (s t : string) : PyStr.len (s ++ t) = PyStr.len s + PyStr.len t.
Proof. induction s as [|c s IH]; simpl; [|rewrite IH]; lia. Qed.

Lemma len_take (k : nat) (s : string) :
  PyStr.len (PyStr.take k s) = Nat.min k (PyStr.len s).
Proof.
  revert k. induction s as [|c s IH]; intros k; simpl; [lia|].
  destruct (PyStr.is_continuation c) eqn:E; simpl; rewrite ?E.
  - apply IH.
  - destruct k as [|k]; simpl; rewrite ?E; [reflexivity|]. rewrite IH. reflexivity.
Qed.

Lemma take_prefix (k : nat) (s : string) :
  exists rest, s = (PyStr.take k s ++ rest)%string.
Proof.
  revert k. induction s as [|c s IH]; intros k; simpl; [exists ""; reflexivity|].
  destruct (PyStr.is_continuation c).
  - destruct (IH k) as [rest Hr]. exists rest. simpl. f_equal. exact Hr.
  - destruct k as [|k].
    + exists (String c s). reflexivity.
    + destruct (IH k) as [rest Hr]. exists rest. simpl. f_equal. exact Hr.
Qed.

Lemma len_slice_to (n : Z) (s : string) :
  (0 <= n)%Z -> PyStr.len (PyStr.slice_to n s) = Nat.min (Z.to_nat n) (PyStr.len s).
Proof.
  intros Hn. unfold PyStr.slice_to.
  assert (E : (n <? 0)%Z = false) by (apply Z.ltb_ge; exact Hn).
  rewrite E. apply len_take.
Qed.

Lemma slice_to_prefix (n : Z) (s : string) :
  exists rest, s = (PyStr.slice_to n s ++ rest)%string.
Proof. unfold PyStr.slice_to. destruct (n <? 0)%Z; apply take_prefix. Qed.

End TextLengthFacts.

(** X14.  For a limit of at least three characters, [truncate_text]
    returns a text of at most [max_length] characters: the text itself
    when it is short enough, else its first [max_length - 3] characters
    followed by three dots, [max_length] characters in all. *)
Theorem truncate_text_fits (text : string) (max_length : Z) :
  (3 <= max_length)%Z ->
  (Z.of_nat (PyStr.len (Utils.truncate_text text max_length)) <= max_length)%Z /\
  ((Z.of_nat (PyStr.len text) <= max_length)%Z ->
   Utils.truncate_text text max_length = text) /\
  ((max_length < Z.of_nat (PyStr.len text))%Z ->
   exists kept rest,
     text = (kept ++ rest)%string /\
     Utils.truncate_text text max_length = (kept ++ "...")%string /\
     Z.of_nat (PyStr.len (Utils.truncate_text text max_length)) = max_length).
Proof.
  intros Hmax. unfold Utils.truncate_text.
  destruct (Z.of_nat (PyStr.len text) <=? max_length)%Z eqn:E.
  - apply Z.leb_le in E. split; [exact E|]. split; [reflexivity | lia].
  - apply Z.leb_gt in E.
    assert (Hlen : PyStr.len (PyStr.slice_to (max_length - 3) text ++ "...")
                   = Z.to_nat max_length).
    { rewrite len_append, len_slice_to by lia. simpl. lia. }
    split; [rewrite Hlen; lia|]. split; [lia|].
    intros _. destruct (slice_to_prefix (max_length - 3) text) as [rest Hrest].
    exists (PyStr.slice_to (max_length - 3) text), rest.
    split; [exact Hrest|]. split; [reflexivity|]. rewrite Hlen. lia.
Qed.

Lemma truncate_text_fits_witness :
  (3 <= 10)%Z /\
  Utils.truncate_text "Región de Valparaíso" 10 = "Región ..." /\
  (Z.of_nat (PyStr.len (Utils.truncate_text "Región de Valparaíso" 10)) <= 10)%Z.
Proof.
  split; [lia|]. split; [reflexivity|].
  exact (proj1 (truncate_text_fits "Región de Valparaíso" 10 ltac:(lia))).
Defined.

(** Below three characters the dots alone overrun the limit. *)
Example truncate_text_overruns :
  Utils.truncate_text "abcdef" 2 = "abcde...".
Proof. reflexivity. Qed.

(** ** Colours *)

Section ColourFacts.

Context {A : Type}.

Lemma slice_to_nonneg (n : Z) (l : list A) :
  (0 <= n)%Z -> slice_to n l = firstn (Z.to_nat n) l.
Proof.
  intros Hn. unfold slice_to, slice_index.
  assert (E : (n <? 0)%Z = false) by (apply Z.ltb_ge; exact Hn).
  rewrite E.
  destruct (Nat.le_ge_cases (Z.to_nat n) (length l)) as [H|H].
  - rewrite Nat.min_l by exact H. reflexivity.
  - rewrite Nat.min_r by exact H.
    rewrite firstn_all, firstn_all2 by exact H. reflexivity.
Qed.

Lemma slice_partition (n : Z) (l : list A) : slice_to n l ++ slice_from n l = l.
Proof. apply firstn_skipn. Qed.

Lemma slice_to_length (n : Z) (l : list A) :
  (0 <= n)%Z -> length (slice_to n l) = Nat.min (Z.to_nat n) (length l).
Proof. intros Hn. rewrite slice_to_nonneg by exact Hn. apply length_firstn. Qed.

Lemma times_length (l : list A) (k : nat) :
  length (VizRest.times l k) = k * length l.
Proof. induction k as [|k IH]; simpl; [|rewrite length_app, IH]; reflexivity. Qed.

Lemma times_nth (l : list A) (k i : nat) :
  i < k * length l ->
  nth_error (VizRest.times l k) i = nth_error l (i mod length l).
Proof.
  revert i. induction k as [|k IH]; intros i Hi; simpl in *; [lia|].
  destruct (Nat.lt_ge_cases i (length l)) as [Hlt|Hge].
  - rewrite nth_error_app1 by exact Hlt. rewrite Nat.mod_small by exact Hlt. reflexivity.
  - rewrite nth_error_app2 by exact Hge. rewrite IH by lia.
    f_equal.
    assert (Hpos : length l <> 0) by lia.
    replace i with (i - length l + 1 * length l) at 2 by lia.
    rewrite Nat.Div0.mod_add. reflexivity.
Qed.

End ColourFacts.

Lemma gradient_colors (n : nat) :
  length (VizRest._create_gradient_colors (Z.of_nat n)) = n /\
  (forall i, i < n ->
     nth_error (VizRest._create_gradient_colors (Z.of_nat n)) i
     = nth_error VizRest.CHART_COLORS (i mod 12)).
Proof.
  unfold VizRest._create_gradient_colors.
  change (length VizRest.CHART_COLORS) with 12.
  destruct (Z.of_nat n <=? Z.of_nat 12)%Z eqn:E.
  - apply Z.leb_le in E.
    rewrite slice_to_nonneg, Nat2Z.id by lia. split.
    + rewrite length_firstn. change (length VizRest.CHART_COLORS) with 12. lia.
    + intros i Hi. rewrite nth_error_firstn.
      assert (Hlt : (i <? n) = true) by (apply Nat.ltb_lt; exact Hi).
      rewrite Hlt, Nat.mod_small by lia. reflexivity.
  - apply Z.leb_gt in E.
    rewrite slice_to_nonneg, Nat2Z.id by lia.
    set (k := Z.to_nat (Z.of_nat n / Z.of_nat 12 + 1)).
    assert (Hk : n < k * 12).
    { unfold k.
      pose proof (Z.mod_pos_bound (Z.of_nat n) 12 ltac:(lia)) as Hm.
      pose proof (Z.div_mod (Z.of_nat n) 12 ltac:(lia)) as Hdm.
      change (Z.of_nat 12) with 12%Z.
      assert (0 <= Z.of_nat n / 12)%Z by (apply Z.div_pos; lia).
      lia. }
    split.
    + rewrite length_firstn, times_length.
      change (length VizRest.CHART_COLORS) with 12. lia.
    + intros i Hi. rewrite nth_error_firstn.
      assert (Hlt : (i <? n) = true) by (apply Nat.ltb_lt; exact Hi).
      rewrite Hlt, times_nth.
      * reflexivity.
      * change (length VizRest.CHART_COLORS) with 12. lia.
Qed.

(** X15.  For a number of marks that is not negative,
    [_create_gradient_colors] returns that many colours, the palette of
    twelve taken in order and started over when it runs out. *)
Theorem gradient_cycles_palette (n : Z) :
  (0 <= n)%Z ->
  length (VizRest._create_gradient_colors n) = Z.to_nat n /\
  (forall i, i < Z.to_nat n ->
     nth_error (VizRest._create_gradient_colors n) i
     = nth_error VizRest.CHART_COLORS (i mod 12)).
Proof.
  intros Hn. pose proof (gradient_colors (Z.to_nat n)) as H.
  rewrite (Z2Nat.id n Hn) in H. exact H.
Qed.

Lemma gradient_cycles_palette_witness :
  (0 <= 14)%Z /\
  length (VizRest._create_gradient_colors 14) = 14 /\
  nth_error (VizRest._create_gradient_colors 14) 13 = Some "#a78bfa".
Proof.
  split; [lia|].
  destruct (gradient_cycles_palette 14 ltac:(lia)) as [Hl Hc].
  split; [exact Hl|].
  rewrite (Hc 13 ltac:(simpl; lia)). reflexivity.
Defined.

(** ** The charts of the aggregates *)

Section ChartFacts.

Lemma sorted_app_cross {A : Type} (R : A -> A -> Prop) (a b : list A) :
  StronglySorted R (a ++ b) ->
  StronglySorted R a /\ forall x y, In x a -> In y b -> R x y.
Proof.
  induction a as [|z a IH]; simpl; intros H.
  - split; [constructor | contradiction].
  - inversion H as [|? ? Hs Hz]; subst.
    destruct (IH Hs) as [Ha Hcross].
    apply Forall_app in Hz as [Hza Hzb].
    split; [constructor; assumption|].
    intros x y [<- | Hx] Hy.
    + rewrite Forall_forall in Hzb. apply Hzb, Hy.
    + apply Hcross; assumption.
Qed.

Lemma agg_categories_values (df : DataFrame) (col name : string) (k : cell) :
  In k (categories (Processing.agg_rows (Processing.agg_counts df col name))) ->
  In k (values df col) /\ k <> NaN.
Proof.
  unfold Processing.agg_counts.
  destruct (has_column df col); simpl; [|contradiction].
  intros H.
  apply (Permutation_in _ (sort_values_categories false _)) in H.
  rewrite groupby_size_categories, sort_cells_in, unique_in in H.
  apply dropna_in, H.
Qed.

Lemma agg_categories_text (df : DataFrame) (col name : string) :
  Forall (fun x => is_number x = false) (values df col) ->
  Forall (fun k => is_text k = true)
    (categories (Processing.agg_rows (Processing.agg_counts df col name))).
Proof.
  intros Hv. apply Forall_forall. intros k Hk.
  destruct (agg_categories_values _ _ _ _ Hk) as [Hin Hna].
  rewrite Forall_forall in Hv. specialize (Hv k Hin).
  destruct k; [contradiction Hna; reflexivity | reflexivity | discriminate].
Qed.

Lemma shorten_all_text (limit : nat) (ds : list cell) :
  Forall (fun k => is_text k = true) ds ->
  exists ts,
    VizRest.shorten_all limit ds = Ok ts /\
    length ts = length ds /\
    Forall (fun t => PyStr.len t <= limit + 3) ts.
Proof.
  induction 1 as [|d ds Hd _ [ts [Hts [Hlen Hall]]]]; simpl.
  - exists []. repeat split. constructor.
  - destruct d as [|t|]; try discriminate. simpl. rewrite Hts.
    eexists. split; [reflexivity|]. split; [simpl; rewrite Hlen; reflexivity|].
    constructor; [|exact Hall].
    destruct (limit <? PyStr.len t) eqn:E.
    + rewrite len_append, len_slice_to by lia. simpl. lia.
    + apply Nat.ltb_ge in E. lia.
Qed.

Lemma firstn_sorted {A : Type} (R : A -> A -> Prop) (k : nat) (l : list A) :
  StronglySorted R l -> StronglySorted R (firstn k l).
Proof.
  intros H. rewrite <- (firstn_skipn k l) in H.
  apply sorted_app_cross in H. apply H.
Qed.

End ChartFacts.

Lemma plot_bar_regiones_drawn (agg : AggRows) (top_n : Z) (ch : VizRest.Chart) :
  VizRest.plot_bar_regiones agg top_n = Ok (VizRest.Drawn ch) ->
  let data := sort_values true (slice_to top_n agg) in
  data <> [] /\
  ch = VizRest.mkChart data
         (rev (VizRest._create_gradient_colors (Z.of_nat (length data)))) []
         (map VizRest.count_text data).
Proof.
  unfold VizRest.plot_bar_regiones. destruct agg as [|r0 agg0]; [discriminate|].
  destruct (sort_values true (slice_to top_n (r0 :: agg0))) as [|d data] eqn:E;
    [discriminate|].
  intros [= <-]. split; [discriminate | reflexivity].
Qed.

(** X16.  The bar chart of the regions, fed the region aggregate, draws
    the groups with the largest counts: no group left out has more
    facilities than a group drawn.  There is at least one bar, the bars
    are in non-decreasing order of count, each has its colour and its
    text, and for a [top_n] that is not negative there are at most
    [top_n] of them. *)
Theorem bar_regiones_shows_largest (df : DataFrame) (col : string) (top_n : Z)
    (ch : VizRest.Chart) :
  VizRest.plot_bar_regiones
    (Processing.agg_rows (Processing.agg_by_region df col)) top_n
  = Ok (VizRest.Drawn ch) ->
  VizRest.data ch <> [] /\
  StronglySorted le (counts (VizRest.data ch)) /\
  (exists omitted,
     Permutation (Processing.agg_rows (Processing.agg_by_region df col))
       (VizRest.data ch ++ omitted) /\
     forall x y, In x (VizRest.data ch) -> In y omitted -> snd y <= snd x) /\
  length (VizRest.colors ch) = length (VizRest.data ch) /\
  length (VizRest.texts ch) = length (VizRest.data ch) /\
  ((0 <= top_n)%Z -> (Z.of_nat (length (VizRest.data ch)) <= top_n)%Z).
Proof.
  intros H. apply plot_bar_regiones_drawn in H as [Hne ->].
  pose proof (agg_counts_sorted df col "region") as Hsorted.
  fold (Processing.agg_by_region df col) in Hsorted.
  set (agg := Processing.agg_rows (Processing.agg_by_region df col)) in *.
  cbn [VizRest.data VizRest.colors VizRest.texts].
  pose proof (sort_values_permutation true (slice_to top_n agg)) as Hperm.
  split; [exact Hne|].
  split; [exact (sort_values_sorted true _)|].
  split; [|split; [|split]].
  - exists (slice_from top_n agg). split.
    + rewrite <- Hperm, slice_partition. reflexivity.
    + intros x y Hx Hy.
      apply (Permutation_in _ (Permutation_sym Hperm)) in Hx.
      rewrite <- (slice_partition top_n agg) in Hsorted.
      unfold counts in Hsorted. rewrite map_app in Hsorted.
      apply sorted_app_cross in Hsorted as [_ Hcross].
      apply (Hcross (snd x) (snd y)); apply in_map; assumption.
  - rewrite length_rev. apply gradient_colors.
  - apply length_map.
  - intros Hn. rewrite <- (Permutation_length Hperm), slice_to_length by exact Hn. lia.
Qed.

Lemma bar_regiones_shows_largest_witness :
  VizRest.plot_bar_regiones
    (Processing.agg_rows (Processing.agg_by_region sample_region_missing "ComunaGlosa")) 1
  = Ok (VizRest.Drawn (VizRest.mkChart [(Str "Arica", 1)] ["#8b5cf6"] [] ["1"])) /\
  length (VizRest.colors (VizRest.mkChart [(Str "Arica", 1)] ["#8b5cf6"] [] ["1"])) = 1.
Proof.
  split; [reflexivity|].
  exact (proj1 (proj2 (proj2 (proj2
    (bar_regiones_shows_largest sample_region_missing "ComunaGlosa" 1 _ eq_refl))))).
Defined.

Lemma plot_bar_regiones_returns (df_agg : AggRows) (top_n : Z) :
  (1 <= top_n)%Z -> exists fig, VizRest.plot_bar_regiones df_agg top_n = Ok fig.
Proof.
  unfold VizRest.plot_bar_regiones. intros Hn.
  destruct df_agg as [|r0 agg0]; [eexists; reflexivity|].
  destruct (sort_values true (slice_to top_n (r0 :: agg0))) as [|d data] eqn:E;
    [|eexists; reflexivity].
  apply (f_equal (@length _)) in E.
  rewrite <- (Permutation_length (sort_values_permutation true _)) in E.
  apply (f_equal Z.of_nat) in E. rewrite slice_to_length in E by lia.
  simpl length in E. lia.
Qed.

(** X17.  Fed the region aggregate, the bar chart of the regions is drawn
    whenever [top_n] is at least one; asked for no bar at all, it fails on
    every aggregate that has a row instead of drawing an empty chart. *)
Theorem bar_regiones_needs_a_bar (df : DataFrame) (col : string) (top_n : Z) :
  ((1 <= top_n)%Z ->
   exists fig,
     VizRest.plot_bar_regiones
       (Processing.agg_rows (Processing.agg_by_region df col)) top_n = Ok fig) /\
  (Processing.agg_rows (Processing.agg_by_region df col) <> [] ->
   exists e,
     VizRest.plot_bar_regiones
       (Processing.agg_rows (Processing.agg_by_region df col)) 0 = Raise e).
Proof.
  split.
  - apply plot_bar_regiones_returns.
  - unfold VizRest.plot_bar_regiones.
    destruct (Processing.agg_rows (Processing.agg_by_region df col)) as [|r0 agg0];
      [congruence|].
    intros _. eexists. reflexivity.
Qed.

Lemma bar_regiones_needs_a_bar_witness :
  (1 <= 10)%Z /\
  exists fig,
    VizRest.plot_bar_regiones
      (Processing.agg_rows (Processing.agg_by_region sample "RegionGlosa")) 10 = Ok fig.
Proof.
  split; [lia|].
  exact (proj1 (bar_regiones_needs_a_bar sample "RegionGlosa" 10) ltac:(lia)).
Defined.

Example bar_regiones_without_bars :
  VizRest.plot_bar_regiones
    (Processing.agg_rows (Processing.agg_by_region sample "RegionGlosa")) 0
  = Raise (ValueError "Axis limits cannot be NaN or Inf").
Proof. reflexivity. Qed.

(** X18.  The donut of the types, fed the type aggregate of a column
    without numbers, is drawn without error and loses no facility: the
    counts of its wedges add up to the counts of the aggregate, the groups
    beyond the first [top_n - 1] being summed under "Otros".  For a
    [top_n] of at least one there are at most [top_n] wedges; each wedge
    has its colour and a legend label of at most 28 characters. *)
Theorem donut_keeps_total (df : DataFrame) (col : string) (top_n : Z) :
  Forall (fun x => is_number x = false) (values df col) ->
  exists fig,
    VizRest.plot_donut_tipos
      (Processing.agg_rows (Processing.agg_by_tipo_establecimiento df col)) top_n = Ok fig /\
    forall ch, fig = VizRest.Drawn ch ->
      total_count (VizRest.data ch)
        = total_count (Processing.agg_rows (Processing.agg_by_tipo_establecimiento df col)) /\
      ((1 <= top_n)%Z -> (Z.of_nat (length (VizRest.data ch)) <= top_n)%Z) /\
      length (VizRest.colors ch) = length (VizRest.data ch) /\
      length (VizRest.short_labels ch) = length (VizRest.data ch) /\
      Forall (fun t => PyStr.len t <= 28) (VizRest.short_labels ch).
Proof.
  intros Hv. unfold VizRest.plot_donut_tipos.
  pose proof (agg_categories_text df col "tipo" Hv) as Htext.
  fold (Processing.agg_by_tipo_establecimiento df col) in Htext.
  set (agg := Processing.agg_rows (Processing.agg_by_tipo_establecimiento df col)) in *.
  destruct agg as [|r0 agg0] eqn:Eagg;
    [eexists; split; [reflexivity | discriminate]|].
  rewrite <- Eagg in *.
  assert (Hne : 0 < length agg) by (rewrite Eagg; simpl; lia).
  clear Eagg r0 agg0.
  set (wedges := if (top_n <? Z.of_nat (length agg))%Z
                 then slice_to (top_n - 1) agg
                      ++ [(Str "Otros", list_sum (map snd (slice_from (top_n - 1) agg)))]
                 else agg).
  assert (Hw_text : Forall (fun k => is_text k = true) (map fst wedges)).
  { unfold wedges. destruct (top_n <? Z.of_nat (length agg))%Z; [|exact Htext].
    rewrite map_app. apply Forall_app. split; [|repeat constructor].
    unfold categories in Htext. rewrite <- (slice_partition (top_n - 1) agg) in Htext.
    rewrite map_app in Htext. apply Forall_app in Htext. apply Htext. }
  destruct (shorten_all_text 25 _ Hw_text) as [ts [Hts [Hlen Hall]]].
  rewrite Hts. eexists. split; [reflexivity|].
  intros ch [= <-]. cbn [VizRest.data VizRest.colors VizRest.short_labels].
  split; [|split; [|split; [|split]]].
  - unfold wedges, total_count, counts.
    destruct (top_n <? Z.of_nat (length agg))%Z; [|reflexivity].
    rewrite <- (slice_partition (top_n - 1) agg) at 3.
    rewrite !map_app, !list_sum_app. simpl. lia.
  - intros Hn. unfold wedges.
    destruct (top_n <? Z.of_nat (length agg))%Z eqn:E.
    + rewrite length_app, slice_to_length by lia. simpl. lia.
    + apply Z.ltb_ge in E. exact E.
  - apply gradient_colors.
  - rewrite Hlen. apply length_map.
  - exact Hall.
Qed.

Lemma donut_keeps_total_witness :
  Forall (fun x => is_number x = false) (values sample "ComunaGlosa") /\
  exists fig,
    VizRest.plot_donut_tipos
      (Processing.agg_rows (Processing.agg_by_tipo_establecimiento sample "ComunaGlosa")) 1
    = Ok fig.
Proof.
  assert (H : Forall (fun x => is_number x = false) (values sample "ComunaGlosa"))
    by (repeat constructor).
  split; [exact H|].
  destruct (donut_keeps_total sample "ComunaGlosa" 1 H) as [fig [Hfig _]].
  exists fig. exact Hfig.
Defined.

(** X19.  The bar chart of the dependencies, fed the dependency aggregate
    of a column without numbers, is drawn without error: its bars are the
    first groups of the aggregate in their order, seven at most, so in
    non-increasing order of count; each bar has its colour, its text and
    a label of at most 19 characters. *)
Theorem bar_dependencia_first_seven (df : DataFrame) (col : string) :
  Forall (fun x => is_number x = false) (values df col) ->
  exists fig,
    VizRest.plot_bar_dependencia
      (Processing.agg_rows (Processing.agg_by_dependencia df col)) = Ok fig /\
    forall ch, fig = VizRest.Drawn ch ->
      length (VizRest.data ch) <= 7 /\
      (exists omitted,
         Processing.agg_rows (Processing.agg_by_dependencia df col)
         = VizRest.data ch ++ omitted) /\
      StronglySorted ge (counts (VizRest.data ch)) /\
      length (VizRest.colors ch) = length (VizRest.data ch) /\
      length (VizRest.texts ch) = length (VizRest.data ch) /\
      length (VizRest.short_labels ch) = length (VizRest.data ch) /\
      Forall (fun t => PyStr.len t <= 19) (VizRest.short_labels ch).
Proof.
  intros Hv. unfold VizRest.plot_bar_dependencia.
  pose proof (agg_categories_text df col "dependencia" Hv) as Htext.
  pose proof (agg_counts_sorted df col "dependencia") as Hsorted.
  fold (Processing.agg_by_dependencia df col) in Htext, Hsorted.
  set (agg := Processing.agg_rows (Processing.agg_by_dependencia df col)) in *.
  destruct agg as [|r0 agg0] eqn:Eagg;
    [eexists; split; [reflexivity | discriminate]|].
  rewrite <- Eagg in *. clear Eagg r0 agg0.
  assert (Hlen7 : length (slice_to 7 agg) <= 7)
    by (rewrite slice_to_length by lia; lia).
  assert (Hb_text : Forall (fun k => is_text k = true) (map fst (slice_to 7 agg))).
  { unfold categories in Htext. rewrite <- (slice_partition 7 agg) in Htext.
    rewrite map_app in Htext. apply Forall_app in Htext. apply Htext. }
  destruct (shorten_all_text 16 _ Hb_text) as [ts [Hts [Hlen Hall]]].
  rewrite Hts. eexists. split; [reflexivity|].
  intros ch [= <-].
  cbn [VizRest.data VizRest.colors VizRest.short_labels VizRest.texts].
  split; [exact Hlen7|].
  split; [exists (slice_from 7 agg); symmetry; apply slice_partition|].
  split.
  { rewrite slice_to_nonneg by lia. unfold counts. rewrite <- firstn_map.
    apply firstn_sorted, Hsorted. }
  split.
  { rewrite slice_to_length by lia. rewrite Nat2Z.id.
    change (length VizRest.ACCENT_COLORS) with 7. lia. }
  split; [apply length_map|].
  split; [rewrite Hlen; apply length_map | exact Hall].
Qed.

Lemma bar_dependencia_first_seven_witness :
  Forall (fun x => is_number x = false) (values sample "DependenciaAdministrativa") /\
  exists fig,
    VizRest.plot_bar_dependencia
      (Processing.agg_rows
         (Processing.agg_by_dependencia sample "DependenciaAdministrativa")) = Ok fig.
Proof.
  assert (H : Forall (fun x => is_number x = false)
                (values sample "DependenciaAdministrativa")) by (repeat constructor).
  split; [exact H|].
  destruct (bar_dependencia_first_seven sample "DependenciaAdministrativa" H)
    as [fig [Hfig _]].
  exists fig. exact Hfig.
Defined.

(** ** The rest of the retrieval client *)

Section ClientRestFacts.

Import ApiClient.

Variable net : Network.

(** One attempt of [_make_request] makes one GET and ends as the GET does. *)
Lemma attempt_outcome (req : Request) (s : Session) :
  (response <- requests_get net req ;;
   _ <- raise_for_status response ;;
   ret response) s
  = (outcome net (calls s) req, mkSession (S (calls s)) (slept s)).
Proof.
  unfold outcome, bind, requests_get, raise_for_status.
  destruct (net (calls s) req) as [r|e]; [|reflexivity].
  destruct ((400 <=? status_code r)%Z && (status_code r <? 600)%Z); reflexivity.
Qed.

Lemma sleep_then {A : Type} (seconds : Z) (k : IO A) (s : Session) :
  (_ <- sleep seconds ;; k) s = k (mkSession (calls s) (slept s + seconds)).
Proof. reflexivity. Qed.

Lemma attempts_effect (req : Request) (retries : Z) (todo : nat) :
  forall (attempt : Z) (last : option exn) (s : Session),
    (attempt + Z.of_nat todo = retries)%Z ->
    todo <> 0 ->
    calls s + 1 <= calls (snd (attempts net req retries todo attempt last s))
      <= calls s + todo /\
    slept (snd (attempts net req retries todo attempt last s))
    = (slept s + RETRY_DELAY
         * (Z.of_nat (calls (snd (attempts net req retries todo attempt last s)) - calls s)
            - 1))%Z.
Proof.
  induction todo as [|todo IH]; intros attempt last s Hsum Hne; [congruence|].
  cbn [attempts]. unfold try_except. rewrite attempt_outcome.
  assert (Hstop : calls s + 1 <= S (calls s) <= calls s + S todo /\
                  slept s = (slept s + RETRY_DELAY * (Z.of_nat (S (calls s) - calls s) - 1))%Z)
    by (split; [lia|]; replace (S (calls s) - calls s) with 1 by lia; lia).
  destruct (outcome net (calls s) req) as [r|e]; [exact Hstop|].
  destruct e; try exact Hstop.
  destruct todo as [|todo'].
  - assert (E : (attempt <? retries - 1)%Z = false) by (apply Z.ltb_ge; lia).
    unfold bind. rewrite E. exact Hstop.
  - assert (E : (attempt <? retries - 1)%Z = true) by (apply Z.ltb_lt; lia).
    rewrite E, !sleep_then. cbn [calls slept].
    destruct (IH (attempt + 1)%Z (Some (RequestException reason))
                (mkSession (S (calls s)) (slept s + RETRY_DELAY))
                ltac:(lia) ltac:(discriminate)) as [Hcalls Hslept].
    cbn [calls slept] in Hcalls, Hslept.
    split; [lia|]. rewrite Hslept. unfold RETRY_DELAY.
    replace (Z.of_nat (calls (snd (attempts net req retries (S todo') (attempt + 1)%Z
                                     (Some (RequestException reason))
                                     (mkSession (S (calls s)) (slept s + 2)))) - calls s))
      with (Z.of_nat (calls (snd (attempts net req retries (S todo') (attempt + 1)%Z
                                     (Some (RequestException reason))
                                     (mkSession (S (calls s)) (slept s + 2))))
                      - S (calls s)) + 1)%Z by (unfold RETRY_DELAY in *; lia).
    lia.
Qed.

Lemma attempts_returns (req : Request) (retries : Z) (r : Response) (todo : nat) :
  forall (attempt : Z) (last : option exn) (s : Session),
    fst (attempts net req retries todo attempt last s) = Ok r ->
    exists j, j < todo /\ fail_from net req (calls s) j /\
              outcome net (calls s + j) req = Ok r.
Proof.
  induction todo as [|todo IH]; intros attempt last s.
  - simpl. destruct last; discriminate.
  - cbn [attempts]. unfold try_except. rewrite attempt_outcome.
    destruct (outcome net (calls s) req) as [r0|e] eqn:E.
    + simpl. intros [= <-]. exists 0. rewrite Nat.add_0_r.
      split; [lia | split; [intros i Hi; lia | exact E]].
    + destruct e; try discriminate.
      assert (Hnext : forall s1, calls s1 = S (calls s) ->
                fst (attempts net req retries todo (attempt + 1)%Z
                       (Some (RequestException reason)) s1) = Ok r ->
                exists j, j < S todo /\ fail_from net req (calls s) j /\
                          outcome net (calls s + j) req = Ok r).
      { intros s1 Hs1 H. destruct (IH _ _ _ H) as [j [Hj [Hfail Hok]]].
        rewrite Hs1 in Hfail, Hok.
        exists (S j). split; [lia|]. split.
        - intros i Hi. destruct i as [|i].
          + exists reason. rewrite Nat.add_0_r. exact E.
          + destruct (Hfail i ltac:(lia)) as [why Hwhy].
            exists why. rewrite <- Hwhy. f_equal. lia.
        - rewrite <- Hok. f_equal. lia. }
      unfold bind. destruct (attempt <? retries - 1)%Z; apply Hnext; reflexivity.
Qed.

End ClientRestFacts.

(** X20.  [_make_request] returns a response exactly when one of the
    first [retries] GETs is answered without an error status while every
    GET before it failed as a request does; the response returned is that
    first answer. *)
Theorem make_request_first_answer (net : ApiClient.Network) (url : string)
    (params : list (string * ApiClient.param)) (timeout retries : Z)
    (r : ApiClient.Response) (s : ApiClient.Session) :
  fst (ApiClient._make_request net url params timeout retries s) = Ok r <->
  exists j,
    (Z.of_nat j < retries)%Z /\
    fail_from net (ApiClient.mkRequest url params timeout) (ApiClient.calls s) j /\
    outcome net (ApiClient.calls s + j) (ApiClient.mkRequest url params timeout) = Ok r.
Proof.
  unfold ApiClient._make_request. split.
  - intros H. apply attempts_returns in H as [j [Hj H]].
    exists j. split; [lia | exact H].
  - intros [j [Hj [Hfail Hok]]].
    rewrite (attempts_then_answer net _ retries r j (Z.to_nat retries) 0%Z None s);
      [reflexivity | lia | lia | exact Hfail | exact Hok].
Qed.

(** X21.  Whatever the network does, a call of [_make_request] with at
    least one attempt allowed makes at least one GET and at most
    [retries], and has paused [RETRY_DELAY] seconds between two GETs and
    at no other time.  With no attempt allowed it makes no GET and fails
    with a [TypeError], having no failure to raise. *)
Theorem make_request_effort (net : ApiClient.Network) (url : string)
    (params : list (string * ApiClient.param)) (timeout retries : Z)
    (s : ApiClient.Session) :
  ((1 <= retries)%Z ->
   ApiClient.calls s + 1
     <= ApiClient.calls (snd (ApiClient._make_request net url params timeout retries s))
     <= ApiClient.calls s + Z.to_nat retries /\
   ApiClient.slept (snd (ApiClient._make_request net url params timeout retries s))
   = (ApiClient.slept s + ApiClient.RETRY_DELAY
        * (Z.of_nat (ApiClient.calls
                       (snd (ApiClient._make_request net url params timeout retries s))
                     - ApiClient.calls s) - 1))%Z) /\
  ((retries <= 0)%Z ->
   ApiClient._make_request net url params timeout retries s
   = (Raise (TypeError "exceptions must derive from BaseException"), s)).
Proof.
  unfold ApiClient._make_request. split.
  - intros Hn. apply attempts_effect; lia.
  - intros Hn. replace (Z.to_nat retries) with 0 by lia. reflexivity.
Qed.

Lemma make_request_effort_witness :
  (1 <= 3)%Z /\
  ApiClient.calls
    (snd (ApiClient._make_request unreachable "https://datos.gob.cl" [] 30 3 ApiClient.fresh))
  <= 3.
Proof.
  split; [lia|].
  exact (proj2 (proj1 (proj1 (make_request_effort unreachable "https://datos.gob.cl" [] 30 3
                                ApiClient.fresh) ltac:(lia)))).
Defined.

Section PackageFacts.

Import ApiClient.

Variable net : Network.
Variable str_of : json -> string.

Lemma fetch_package_info_reads (package_id base_url : string) (s : Session) :
  fst (ApiClientRest.fetch_package_info net str_of package_id base_url s)
  = match fst (_make_request net (base_url ++ "/api/3/action/package_show")%string
                 [("id", PStr package_id)] DEFAULT_TIMEOUT MAX_RETRIES s) with
    | Ok r => read_package str_of r
    | Raise e => Raise e
    end.
Proof.
  unfold ApiClientRest.fetch_package_info. unfold bind at 1.
  destruct (_make_request net _ _ DEFAULT_TIMEOUT MAX_RETRIES s) as [[r|e] s1];
    [|reflexivity].
  cbn [fst]. unfold read_package, bind at 1, response_json.
  destruct (body_json r) as [data|]; [|reflexivity].
  unfold ret at 1. unfold bind at 1, dict_get.
  destruct data as [| | | | |entries]; try reflexivity.
  unfold reports_success.
  destruct (lookup "success" entries) as [v|] eqn:Ev; unfold ret at 1.
  - destruct (truthy v); cbn [negb].
    + unfold subscript. destruct (lookup "result" entries); reflexivity.
    + reflexivity.
  - reflexivity.
Qed.

End PackageFacts.

Section PackageReturns.

Import ApiClient.

Variable net : Network.
Variable str_of : json -> string.

Lemma make_request_answered (url : string) (params : list (string * param))
    (r : Response) (j : nat) (s : Session) :
  j < 3 ->
  fail_from net (mkRequest url params DEFAULT_TIMEOUT) (calls s) j ->
  outcome net (calls s + j) (mkRequest url params DEFAULT_TIMEOUT) = Ok r ->
  _make_request net url params DEFAULT_TIMEOUT MAX_RETRIES s
  = (Ok r, mkSession (calls s + j + 1) (slept s + RETRY_DELAY * Z.of_nat j)).
Proof.
  intros Hj Hfail Hok. unfold _make_request.
  apply (attempts_then_answer net _ MAX_RETRIES r j 3 0%Z None s);
    [reflexivity | exact Hj | exact Hfail | exact Hok].
Qed.

Lemma make_request_answer (url : string) (params : list (string * param))
    (r : Response) (s : Session) :
  fst (_make_request net url params DEFAULT_TIMEOUT MAX_RETRIES s) = Ok r ->
  exists j, j < 3 /\
            fail_from net (mkRequest url params DEFAULT_TIMEOUT) (calls s) j /\
            outcome net (calls s + j) (mkRequest url params DEFAULT_TIMEOUT) = Ok r.
Proof. unfold _make_request. apply attempts_returns. Qed.

Lemma read_package_ok (r : Response) (v : json) :
  read_package str_of r = Ok v <->
  exists entries,
    body_json r = Some (JDict entries) /\
    reports_success entries = true /\
    lookup "result" entries = Some v.
Proof.
  unfold read_package. split.
  - destruct (body_json r) as [data|]; [|discriminate].
    destruct data as [| | | | |entries]; try discriminate.
    destruct (reports_success entries) eqn:Eflag; [|discriminate].
    destruct (lookup "result" entries) as [w|] eqn:Eresult; [|discriminate].
    intros [= ->]. exists entries. split; [reflexivity|]. split; [exact Eflag | exact Eresult].
  - intros [entries [-> [-> ->]]]. reflexivity.
Qed.

Lemma fetch_package_info_ok (package_id base_url : string) (v : json) (s : Session) :
  fst (ApiClientRest.fetch_package_info net str_of package_id base_url s) = Ok v <->
  exists j r entries,
    j < 3 /\
    fail_from net (package_request package_id base_url) (calls s) j /\
    outcome net (calls s + j) (package_request package_id base_url) = Ok r /\
    body_json r = Some (JDict entries) /\
    reports_success entries = true /\
    lookup "result" entries = Some v.
Proof.
  rewrite fetch_package_info_reads. unfold package_request. split.
  - destruct (fst (_make_request net _ _ DEFAULT_TIMEOUT MAX_RETRIES s)) as [r|e] eqn:E;
      [|discriminate].
    intros H. apply make_request_answer in E as [j [Hj [Hfail Hok]]].
    apply read_package_ok in H as [entries H].
    exists j, r, entries. split; [exact Hj|]. split; [exact Hfail|]. split; [exact Hok|].
    exact H.
  - intros [j [r [entries [Hj [Hfail [Hok H]]]]]].
    rewrite (make_request_answered _ _ r j s Hj Hfail Hok). cbn [fst].
    apply read_package_ok. exists entries. exact H.
Qed.

End PackageReturns.

(** X22.  [fetch_package_info] returns a package exactly when one of its
    three GETs is answered, every GET before it having failed as a request
    does, and the answer is a JSON object whose success flag is true and
    which has a result: the package returned is that result. *)
Theorem fetch_package_info_returns (net : ApiClient.Network)
    (str_of : ApiClient.json -> string) (package_id base_url : string)
    (v : ApiClient.json) (s : ApiClient.Session) :
  fst (ApiClientRest.fetch_package_info net str_of package_id base_url s) = Ok v <->
  exists j r entries,
    j < 3 /\
    fail_from net (package_request package_id base_url) (ApiClient.calls s) j /\
    outcome net (ApiClient.calls s + j) (package_request package_id base_url) = Ok r /\
    ApiClient.body_json r = Some (ApiClient.JDict entries) /\
    reports_success entries = true /\
    ApiClient.lookup "result" entries = Some v.
Proof. apply fetch_package_info_ok. Qed.

Example fetch_package_info_of_sample :
  fst (ApiClientRest.fetch_package_info (portal sample_reply) no_text
         "establecimientos" ApiClient.BASE_URL ApiClient.fresh)
  = Ok sample_package.
Proof. reflexivity. Qed.

(** X23.  When the answer [fetch_package_info] gets is a JSON object whose
    success flag is false or missing, it raises a [ValueError] whose
    message is "Error al obtener el paquete: " followed by the error the
    answer carries, "Desconocido" when it carries none. *)
Theorem fetch_package_info_refused (net : ApiClient.Network)
    (str_of : ApiClient.json -> string) (package_id base_url : string)
    (j : nat) (r : ApiClient.Response) (entries : list (string * ApiClient.json))
    (s : ApiClient.Session) :
  j < 3 ->
  fail_from net (package_request package_id base_url) (ApiClient.calls s) j ->
  outcome net (ApiClient.calls s + j) (package_request package_id base_url) = Ok r ->
  ApiClient.body_json r = Some (ApiClient.JDict entries) ->
  reports_success entries = false ->
  exists error,
    fst (ApiClientRest.fetch_package_info net str_of package_id base_url s)
    = Raise (ValueError ("Error al obtener el paquete: " ++ error)%string) /\
    (ApiClient.lookup "error" entries = None -> error = "Desconocido") /\
    (forall text, ApiClient.lookup "error" entries = Some (ApiClient.JStr text) ->
                  error = text).
Proof.
  intros Hj Hfail Hok Hbody Hflag.
  exists (ApiClientRest.formatted str_of
            (ApiClientRest.get_or entries "error" (ApiClient.JStr "Desconocido"))).
  split; [|split].
  - rewrite fetch_package_info_reads.
    unfold package_request in Hfail, Hok.
    rewrite (make_request_answered net _ _ r j s Hj Hfail Hok). cbn [fst].
    unfold read_package. rewrite Hbody, Hflag. reflexivity.
  - unfold ApiClientRest.get_or. intros ->. reflexivity.
  - unfold ApiClientRest.get_or. intros text ->. reflexivity.
Qed.

Lemma fetch_package_info_refused_witness :
  0 < 3 /\
  fst (ApiClientRest.fetch_package_info (portal sample_refusal) no_text
         "establecimientos" ApiClient.BASE_URL ApiClient.fresh)
  = Raise (ValueError "Error al obtener el paquete: Not found").
Proof.
  split; [lia|].
  destruct (fetch_package_info_refused (portal sample_refusal) no_text
              "establecimientos" ApiClient.BASE_URL 0
              (ApiClient.mkResponse 200 (Some sample_refusal))
              [("success", ApiClient.JBool false); ("error", ApiClient.JStr "Not found")]
              ApiClient.fresh ltac:(lia) ltac:(intros i Hi; lia)
              eq_refl eq_refl eq_refl) as [error [Hraise [_ Htext]]].
  rewrite Hraise, (Htext "Not found" eq_refl). reflexivity.
Defined.

Section ResourceFacts.

Import ApiClient.




End ResourceFacts.



Example csv_resources_of_sample :
  ApiClientRest.get_csv_resources_from_package sample_package
  = Ok [ApiClient.JDict
          [("id", ApiClient.JStr "r1"); ("name", ApiClient.JStr "Sin nombre");
           ("url", ApiClient.JStr "https://datos.gob.cl/r1.csv");
           ("description", ApiClient.JStr "")]].
Proof. reflexivity. Qed.

(** X25.  [get_package_resources] never raises.  When the three GETs fail
    as requests do it returns the empty list, after three GETs and two
    pauses; and it returns resources only if the portal answered one of
    the three GETs with a JSON object whose success flag is true and whose
    result is a package these resources are read from. *)
Theorem package_resources_or_nothing (net : ApiClient.Network)
    (str_of : ApiClient.json -> string) (package_id : string) (s : ApiClient.Session) :
  (exists csv_resources,
     fst (App.get_package_resources net str_of package_id s) = Ok csv_resources) /\
  (fail_from net (package_request package_id ApiClient.BASE_URL) (ApiClient.calls s) 3 ->
   App.get_package_resources net str_of package_id s
   = (Ok [], ApiClient.mkSession (ApiClient.calls s + 3) (ApiClient.slept s + 4))) /\
  (forall csv_resources,
     fst (App.get_package_resources net str_of package_id s) = Ok csv_resources ->
     csv_resources <> [] ->
     exists j r entries package_info,
       j < 3 /\
       outcome net (ApiClient.calls s + j) (package_request package_id ApiClient.BASE_URL)
         = Ok r /\
       ApiClient.body_json r = Some (ApiClient.JDict entries) /\
       reports_success entries = true /\
       ApiClient.lookup "result" entries = Some package_info /\
       ApiClientRest.get_csv_resources_from_package package_info = Ok csv_resources).
Proof.
  unfold App.get_package_resources. split; [|split].
  - destruct (ApiClient.bind _ _ s) as [[out|e] s1]; eexists; reflexivity.
  - intros Hfail.
    destruct (attempts_all_fail net (package_request package_id ApiClient.BASE_URL)
                ApiClient.MAX_RETRIES 3 0%Z None s eq_refl Hfail ltac:(discriminate))
      as [why [_ Hrun]].
    unfold ApiClient.bind at 1, ApiClientRest.fetch_package_info.
    unfold ApiClient.bind at 1, ApiClient._make_request.
    change (Z.to_nat ApiClient.MAX_RETRIES) with 3.
    unfold package_request in Hrun. rewrite Hrun. reflexivity.
  - intros out Hout Hne.
    unfold ApiClient.bind in Hout.
    destruct (ApiClientRest.fetch_package_info net str_of package_id ApiClient.BASE_URL s)
      as [[package_info|e] s1] eqn:Efetch.
    + assert (Hfetch : fst (ApiClientRest.fetch_package_info net str_of package_id
                              ApiClient.BASE_URL s) = Ok package_info)
        by (rewrite Efetch; reflexivity).
      apply fetch_package_info_ok in Hfetch
        as [j [r [entries [Hj [_ [Hok [Hbody [Hflag Hresult]]]]]]]].
      exists j, r, entries, package_info.
      repeat (split; [assumption|]).
      unfold ApiClient.lift in Hout.
      destruct (ApiClientRest.get_csv_resources_from_package package_info) as [l|e'].
      * simpl in Hout. exact Hout.
      * simpl in Hout. injection Hout as <-. congruence.
    + simpl in Hout. injection Hout as <-. congruence.
Qed.

Lemma package_resources_or_nothing_witness :
  fail_from unreachable (package_request "establecimientos" ApiClient.BASE_URL)
    (ApiClient.calls ApiClient.fresh) 3 /\
  App.get_package_resources unreachable no_text "establecimientos" ApiClient.fresh
  = (Ok [], ApiClient.mkSession 3 4).
Proof.
  assert (H : fail_from unreachable (package_request "establecimientos" ApiClient.BASE_URL)
                (ApiClient.calls ApiClient.fresh) 3)
    by (intros i Hi; exists "ConnectionError"; reflexivity).
  split; [exact H|].
  exact (proj1 (proj2 (package_resources_or_nothing unreachable no_text "establecimientos"
                         ApiClient.fresh)) H).
Defined.
